(** * Glass-panel validation: the Judge agent and the precision calculator

    A shallow embedding of [scripts/agent2_judge.py] and
    [scripts/precision_calculator.py].  Extractions are the JSON documents the
    command-line tools load with [json.load]; Python numbers are read as real
    numbers (exact arithmetic), Python exceptions as an error result. *)

From Stdlib Require Import List String Ascii Bool ZArith Reals Lra Lia.
From Stdlib Require Import DecimalString.
Import ListNotations.

Set Warnings "-register-all".
Local Open Scope string_scope.
Local Open Scope R_scope.

(** ** Python values and the operations the two scripts use *)

Module Py.

Inductive exn : Type :=
| TypeError
| AttributeError
| ZeroDivisionError
| ValueError.

Inductive result (A : Type) : Type :=
| OK (a : A)
| Raise (e : exn).

Arguments OK {A} a.
Arguments Raise {A} e.

Definition bind {A B : Type} (m : result A) (k : A -> result B) : result B :=
  match m with
  | OK a => k a
  | Raise e => Raise e
  end.

(** What [json.load] produces.  Integers and floats are both [VNum]. *)
Inductive value : Type :=
| VNone
| VBool (b : bool)
| VNum (r : R)
| VStr (s : string)
| VList (l : list value)
| VDict (d : list (string * value)).

Definition dict : Type := list (string * value).

Fixpoint lookup (k : string) (d : dict) : option value :=
  match d with
  | [] => None
  | (k', v) :: d' => if String.eqb k k' then Some v else lookup k d'
  end.

(** The value under key [k], or [default] when the key is missing. *)
Definition field (d : dict) (k : string) (default : value) : value :=
  match lookup k d with Some v => v | None => default end.

(** [o.get(k, default)]: only a dict has the method. *)
Definition get (o : value) (k : string) (default : value) : result value :=
  match o with
  | VDict d => OK (field d k default)
  | _ => Raise AttributeError
  end.

Definition Rleb (x y : R) : bool := if Rle_dec x y then true else false.
Definition Rltb (x y : R) : bool := if Rlt_dec x y then true else false.
Definition Reqb (x y : R) : bool := if Req_dec_T x y then true else false.

Arguments Rleb : simpl never.
Arguments Rltb : simpl never.
Arguments Reqb : simpl never.

(** Truth value of an object, as [if v:] and [not v] test it. *)
Definition truthy (v : value) : bool :=
  match v with
  | VNone => false
  | VBool b => b
  | VNum r => negb (Reqb r 0)
  | VStr s => negb (String.eqb s "")
  | VList l => match l with [] => false | _ => true end
  | VDict d => match d with [] => false | _ => true end
  end.

(** The number held by a value; [bool] is a subclass of [int].  Arithmetic
    and ordering are modelled on numbers only: any other operand is a
    [TypeError] (Python also concatenates and orders two strings or two
    lists, which no numeric field of an extraction holds). *)
Definition as_num (v : value) : result R :=
  match v with
  | VNum r => OK r
  | VBool b => OK (if b then 1 else 0)
  | _ => Raise TypeError
  end.

Definition num2 {A : Type} (f : R -> R -> A) (a b : value) : result A :=
  bind (as_num a) (fun x => bind (as_num b) (fun y => OK (f x y))).

Definition add (a b : value) : result value := num2 (fun x y => VNum (x + y)) a b.
Definition sub (a b : value) : result value := num2 (fun x y => VNum (x - y)) a b.
Definition mul (a b : value) : result value := num2 (fun x y => VNum (x * y)) a b.

Definition div (a b : value) : result value :=
  bind (as_num a) (fun x => bind (as_num b) (fun y =>
    if Reqb y 0 then Raise ZeroDivisionError else OK (VNum (x / y)))).

Definition le (a b : value) : result bool := num2 Rleb a b.
Definition lt (a b : value) : result bool := num2 Rltb a b.
Definition ge (a b : value) : result bool := num2 (fun x y => Rleb y x) a b.
Definition gt (a b : value) : result bool := num2 (fun x y => Rltb y x) a b.

Definition abs (a : value) : result value :=
  bind (as_num a) (fun x => OK (VNum (Rabs x))).

(** [max(a, b)] and [min(a, b)] of two numbers. *)
Definition max (a b : value) : result value := num2 (fun x y => VNum (Rmax x y)) a b.
Definition min (a b : value) : result value := num2 (fun x y => VNum (Rmin x y)) a b.

(** [a ** 2], [math.sqrt(a)] (a negative argument is a math domain error)
    and [math.pi]. *)
Definition pow2 (a : value) : result value :=
  bind (as_num a) (fun x => OK (VNum (x ^ 2))).

Definition math_sqrt (a : value) : result value :=
  bind (as_num a) (fun x =>
    if Rltb x 0 then Raise ValueError else OK (VNum (sqrt x))).


(** [s.lower()] on ASCII letters, and [needle in s] for strings. *)
Definition lower_ascii (c : ascii) : ascii :=
  let n := nat_of_ascii c in
  if ((65 <=? n) && (n <=? 90))%nat then ascii_of_nat (n + 32) else c.

Fixpoint lower (s : string) : string :=
  match s with
  | EmptyString => EmptyString
  | String c s' => String (lower_ascii c) (lower s')
  end.

Definition contains (needle s : string) : bool :=
  match String.index 0 needle s with
  | Some _ => true
  | None => false
  end.

(** [v == "s"]: equality never raises. *)
Definition eq_str (v : value) (s : string) : bool :=
  match v with
  | VStr s' => String.eqb s' s
  | _ => false
  end.

(** The items a [for] loop (or [enumerate], [sum], [sorted]) draws from an
    object: the elements of a list, the keys of a dict, the characters of a
    string; anything else is not iterable. *)
Definition chars (s : string) : list value :=
  map (fun c => VStr (String c EmptyString)) (list_ascii_of_string s).

Definition iter (v : value) : result (list value) :=
  match v with
  | VList l => OK l
  | VDict d => OK (map (fun kv => VStr (fst kv)) d)
  | VStr s => OK (chars s)
  | _ => Raise TypeError
  end.

(** [len(v)]. *)
Definition len (v : value) : result Z :=
  match v with
  | VList l => OK (Z.of_nat (List.length l))
  | VDict d => OK (Z.of_nat (List.length d))
  | VStr s => OK (Z.of_nat (String.length s))
  | _ => Raise TypeError
  end.

(** The sum of a list of numbers. *)
Definition Rsum (l : list R) : R := fold_right Rplus 0 l.

(** [str(n)] of an integer. *)
Definition str_int (n : Z) : string :=
  NilZero.string_of_int (Z.to_int n).

(** ["; ".join(parts)]. *)
Definition join (sep : string) (parts : list string) : string :=
  String.concat sep parts.

End Py.

Declare Scope py_scope.
Delimit Scope py_scope with py.
Notation "x <- m ;; k" := (Py.bind m (fun x => k))
  (at level 61, m at next level, right associativity) : py_scope.

Local Open Scope py_scope.

(** ** [scripts/agent2_judge.py] *)

Module Judge.
Import Py.

(** Result of a single validation check (the [ValidationResult] dataclass).
    [severity] defaults to ["error"] and [correction] to [None]. *)
Record ValidationResult : Type := mkValidationResult {
  check_name : string;
  passed : bool;
  message : string;
  severity : string;
  correction : option value
}.

(** The declared fields of the dataclass, in declaration order. *)
Definition ValidationResult_fields : list string :=
  ["check_name"; "passed"; "message"; "severity"; "correction"].

(** The instance dictionary of a [ValidationResult] ([vars(v)]). *)
Definition opt_value (o : option value) : value :=
  match o with Some v => v | None => VNone end.

Definition ValidationResult_vars (v : ValidationResult) : dict :=
  [("check_name", VStr (check_name v));
   ("passed", VBool (passed v));
   ("message", VStr (message v));
   ("severity", VStr (severity v));
   ("correction", opt_value (correction v))].

(** Constructor calls that leave the defaults in place. *)
Definition ok_result (name msg : string) : ValidationResult :=
  mkValidationResult name true msg "error" None.

(** Complete judgment on an extraction (the [Judgment] dataclass). *)
Record Judgment : Type := mkJudgment {
  j_approved : bool;
  j_confidence : R;
  j_validations : list ValidationResult;
  j_feedback : dict;
  j_iteration : Z
}.

(** The attributes [JudgeAgent.__init__] sets. *)
Record JudgeAgent : Type := mkJudgeAgent {
  review_history : list Judgment;
  iteration : Z;
  max_iterations : Z
}.

Definition init : JudgeAgent := mkJudgeAgent [] 0 5.

(** The dictionary [review] returns, one field per key. *)
Record ReviewResult : Type := mkReviewResult {
  approved : bool;
  confidence : R;
  feedback : dict;
  errors : list string;
  warnings : list string;
  r_iteration : Z;
  can_continue : bool
}.

Section Validators.

(** How an f-string renders a value ([{x}]) and a number to one decimal
    ([{x:.1f}]). *)
Variable py_str : value -> string.
Variable fmt1 : value -> string.

Definition num (r : R) : value := VNum r.

(** [sum(s.get("width", 0) for s in sections)]: the accumulator starts at
    the integer 0. *)
Fixpoint sum_widths (acc : value) (sections : list value) : result value :=
  match sections with
  | [] => OK acc
  | s :: rest =>
      w <- get s "width" (num 0) ;;
      acc' <- add acc w ;;
      sum_widths acc' rest
  end.

(** [[s.get("width", 0) + correction_per_section for s in sections]]. *)
Fixpoint corrected_widths (c : value) (sections : list value)
  : result (list value) :=
  match sections with
  | [] => OK []
  | s :: rest =>
      w <- get s "width" (num 0) ;;
      w' <- add w c ;;
      ws <- corrected_widths c rest ;;
      OK (w' :: ws)
  end.

Definition _validate_width_sum (total_width sections : value)
  : result ValidationResult :=
  if negb (truthy sections) then
    OK (mkValidationResult "width_sum" false "No sections defined" "error" None)
  else
    items <- iter sections ;;
    section_sum <- sum_widths (num 0) items ;;
    let tolerance := num (1/2) in
    d <- sub section_sum total_width ;;
    a <- abs d ;;
    within <- le a tolerance ;;
    if within then
      OK (ok_result "width_sum"
            ("Width sum OK: " ++ py_str section_sum ++ "mm = "
               ++ py_str total_width ++ "mm"))
    else
      diff <- sub total_width section_sum ;;
      num_sections <- len sections ;;
      correction_per_section <- div diff (num (IZR num_sections)) ;;
      widths <- corrected_widths correction_per_section items ;;
      OK (mkValidationResult "width_sum" false
            ("Width mismatch: sections sum to " ++ py_str section_sum
               ++ "mm, expected " ++ py_str total_width ++ "mm")
            "error"
            (Some (VDict [("total_width", total_width);
                          ("section_widths", VList widths);
                          ("adjustment", correction_per_section)]))).

(** The [for i, section in enumerate(sections)] loop of [_validate_taper];
    every [return] inside it ends the function. *)
Fixpoint taper_loop (i : Z) (sections : list value) : result ValidationResult :=
  match sections with
  | [] =>
      OK (ok_result "taper_validation"
            "Taper validation passed (door has tapered geometry, no notch)")
  | section :: rest =>
      section_type <- get section "type" (VStr "") ;;
      if eq_str section_type "door" || (i =? 0)%Z then
        has_notch <- get section "has_notch" (VBool false) ;;
        if truthy has_notch then
          OK (mkValidationResult "taper_validation" false
                "Door should NOT have a notch - only tapered geometry"
                "warning"
                (Some (VDict
                   [("section_index", num (IZR i));
                    ("has_notch", VBool false);
                    ("is_tapered", VBool true);
                    ("note", VStr "Door has tapered geometry (84< = taper reference), NOT a notch")])))
        else
          is_tapered <- get section "is_tapered" VNone ;;
          if truthy is_tapered then
            width_bottom <- get section "width_bottom" (num 0) ;;
            width_top <- get section "width_top" (num 0) ;;
            taper_start <- get section "taper_start_height" (num 84) ;;
            section_height <- get section "height" (num 0) ;;
            inverted <- le width_top width_bottom ;;
            if inverted then
              suggested <- add width_bottom (num (2/10)) ;;
              OK (mkValidationResult "taper_validation" false
                    ("Taper invalid: width_top (" ++ py_str width_top
                       ++ ") should be > width_bottom (" ++ py_str width_bottom
                       ++ ")")
                    "warning"
                    (Some (VDict [("section_index", num (IZR i));
                                  ("suggested_width_top", suggested)])))
            else
              late <- ge taper_start section_height ;;
              if late then
                suggested <- sub section_height (num 10) ;;
                OK (mkValidationResult "taper_validation" false
                      ("Taper start (" ++ py_str taper_start
                         ++ ") should be less than section height ("
                         ++ py_str section_height ++ ")")
                      "warning"
                      (Some (VDict [("section_index", num (IZR i));
                                    ("suggested_taper_start", suggested)])))
              else
                OK (ok_result "taper_validation"
                      ("Door taper OK: " ++ py_str width_bottom ++ "mm -> "
                         ++ py_str width_top ++ "mm, starts at "
                         ++ py_str taper_start ++ "mm"))
          else taper_loop (i + 1)%Z rest
      else taper_loop (i + 1)%Z rest
  end.

Definition _validate_taper (sections height_profile : value)
  : result ValidationResult :=
  items <- iter sections ;;
  taper_loop 0 items.

(** [x_start <= x <= x_end]: the second comparison runs only when the first
    holds. *)
Definition between (x_start x x_end : value) : result bool :=
  c <- le x_start x ;;
  if c then le x x_end else OK false.

(** The inner [for section in sections] loop of [_validate_holes] for hole
    [i]: whether a section was found, and the issues and fixes appended
    before the [break]. *)
Fixpoint hole_sections (i : Z) (x y radius : value) (sections : list value)
  : result (bool * (list string * list value)) :=
  match sections with
  | [] => OK (false, ([], []))
  | section :: rest =>
      x_start <- get section "x_offset" (num 0) ;;
      w <- get section "width" (num 0) ;;
      x_end <- add x_start w ;;
      section_height <- get section "height" (num 0) ;;
      inside <- between x_start x x_end ;;
      if inside then
        high <- gt y section_height ;;
        ry <- (if high then
                 t <- sub section_height radius ;;
                 fy <- sub t (num 10) ;;
                 OK (["Hole " ++ str_int (i + 1) ++ " Y=" ++ py_str y
                        ++ " exceeds section height " ++ py_str section_height],
                     [VDict [("index", num (IZR i)); ("y", fy)]])
               else OK ([], [])) ;;
        xl <- sub x radius ;;
        left <- lt xl x_start ;;
        rx <- (if left then
                 t <- add x_start radius ;;
                 fx <- add t (num 8) ;;
                 OK (["Hole " ++ str_int (i + 1) ++ " too close to left edge"],
                     [VDict [("index", num (IZR i)); ("x", fx)]])
               else
                 xr <- add x radius ;;
                 right <- gt xr x_end ;;
                 if right then
                   t <- sub x_end radius ;;
                   fx <- sub t (num 8) ;;
                   OK (["Hole " ++ str_int (i + 1) ++ " too close to right edge"],
                       [VDict [("index", num (IZR i)); ("x", fx)]])
                 else OK ([], [])) ;;
        OK (true, ((fst ry ++ fst rx)%list, (snd ry ++ snd rx)%list))
      else hole_sections i x y radius rest
  end.

(** The [for i, hole in enumerate(holes)] loop of [_validate_holes]. *)
Fixpoint holes_loop (i : Z) (holes : list value) (sections : value)
  (issues : list string) (fixes : list value)
  : result (list string * list value) :=
  match holes with
  | [] => OK (issues, fixes)
  | hole :: rest =>
      x <- get hole "x" (num 0) ;;
      y <- get hole "y" (num 0) ;;
      diameter <- get hole "diameter" (num 8) ;;
      radius <- div diameter (num 2) ;;
      items <- iter sections ;;
      r <- hole_sections i x y radius items ;;
      let issues1 := (issues ++ fst (snd r))%list in
      let fixes1 := (fixes ++ snd (snd r))%list in
      let issues2 :=
        if fst r then issues1
        else app issues1 ["Hole " ++ str_int (i + 1) ++ " at X=" ++ py_str x
                            ++ " not within any section"] in
      holes_loop (i + 1)%Z rest sections issues2 fixes1
  end.

Definition nonempty {A : Type} (l : list A) : bool :=
  match l with [] => false | _ => true end.

Definition _validate_holes (holes sections thickness : value)
  : result ValidationResult :=
  if negb (truthy holes) then
    OK (ok_result "hole_positions" "No holes to validate")
  else
    items <- iter holes ;;
    r <- holes_loop 0 items sections [] [] ;;
    let issues := fst r in
    let fixes := snd r in
    if nonempty issues then
      OK (mkValidationResult "hole_positions" false (join "; " issues) "error"
            (if nonempty fixes then Some (VDict [("fixes", VList fixes)])
             else None))
    else
      OK (ok_result "hole_positions" "All holes within section boundaries").

(** The loop of [_validate_heights]. *)
Fixpoint heights_loop (i : Z) (sections : list value)
  (issues : list string) (section_heights : list value)
  : result (list string * list value) :=
  match sections with
  | [] => OK (issues, section_heights)
  | section :: rest =>
      height <- get section "height" (num 0) ;;
      low <- le height (num 0) ;;
      found <- (if low then
                  OK ["Section " ++ str_int (i + 1) ++ " has invalid height: "
                        ++ py_str height]
                else
                  high <- gt height (num 5000) ;;
                  OK (if high then
                        ["Section " ++ str_int (i + 1) ++ " height "
                           ++ py_str height ++ "mm exceeds maximum (5000mm)"]
                      else [])) ;;
      heights_loop (i + 1)%Z rest (issues ++ found)%list
        (section_heights ++ [height])%list
  end.

Definition _validate_heights (sections height_profile : value)
  : result ValidationResult :=
  items <- iter sections ;;
  r <- heights_loop 0 items [] [] ;;
  if nonempty (fst r) then
    OK (mkValidationResult "height_validation" false (join "; " (fst r)) "error"
          (Some (VDict [("section_heights", VList (snd r))])))
  else
    OK (ok_result "height_validation" "All section heights valid").

(** One [if dist < min_edge: issues.append(...)] of [_validate_edge_distances]. *)
Definition edge_issue (i : Z) (side : string) (dist min_edge : value)
  : result (list string) :=
  c <- lt dist min_edge ;;
  OK (if c then
        ["Hole " ++ str_int (i + 1) ++ ": " ++ side ++ " edge distance "
           ++ fmt1 dist ++ "mm < " ++ py_str min_edge ++ "mm"]
      else []).

(** The inner section loop of [_validate_edge_distances] for hole [i]. *)
Fixpoint edge_sections (i : Z) (x y radius min_edge : value)
  (sections : list value) : result (list string) :=
  match sections with
  | [] => OK []
  | section :: rest =>
      x_start <- get section "x_offset" (num 0) ;;
      w <- get section "width" (num 0) ;;
      x_end <- add x_start w ;;
      section_height <- get section "height" (num 0) ;;
      inside <- between x_start x x_end ;;
      if inside then
        t1 <- sub x x_start ;;
        dist_left <- sub t1 radius ;;
        t2 <- sub x_end x ;;
        dist_right <- sub t2 radius ;;
        dist_bottom <- sub y radius ;;
        t3 <- sub section_height y ;;
        dist_top <- sub t3 radius ;;
        l <- edge_issue i "left" dist_left min_edge ;;
        r <- edge_issue i "right" dist_right min_edge ;;
        b <- edge_issue i "bottom" dist_bottom min_edge ;;
        t <- edge_issue i "top" dist_top min_edge ;;
        OK (l ++ r ++ b ++ t)%list
      else edge_sections i x y radius min_edge rest
  end.

Fixpoint edge_loop (i : Z) (holes : list value) (sections min_edge : value)
  (issues : list string) : result (list string) :=
  match holes with
  | [] => OK issues
  | hole :: rest =>
      x <- get hole "x" (num 0) ;;
      y <- get hole "y" (num 0) ;;
      diameter <- get hole "diameter" (num 8) ;;
      radius <- div diameter (num 2) ;;
      items <- iter sections ;;
      found <- edge_sections i x y radius min_edge items ;;
      edge_loop (i + 1)%Z rest sections min_edge (issues ++ found)%list
  end.

Definition _validate_edge_distances (holes sections thickness : value)
  : result ValidationResult :=
  doubled <- mul thickness (num 2) ;;
  min_edge <- max doubled (num 25) ;;
  items <- iter holes ;;
  issues <- edge_loop 0 items sections min_edge [] ;;
  if nonempty issues then
    OK (mkValidationResult "edge_distances" false (join "; " issues)
          "warning" None)
  else
    OK (ok_result "edge_distances"
          ("All holes maintain minimum edge distance (" ++ py_str min_edge
             ++ "mm)")).

(** [if not result.passed and result.correction: feedback[key] = ...]. *)
Definition add_feedback (feedback : dict) (key : string)
  (v : ValidationResult) : dict :=
  match correction v with
  | Some c => if negb (passed v) && truthy c then (feedback ++ [(key, c)])%list
              else feedback
  | None => feedback
  end.

(** The five checks of [review], in order, with the feedback they leave. *)
Definition run_checks (extraction : value)
  : result (list ValidationResult * dict) :=
  dims <- get extraction "dimensions" (VDict []) ;;
  sections <- get extraction "sections" (VList []) ;;
  holes <- get extraction "holes" (VList []) ;;
  height_profile <- get extraction "height_profile" (VList []) ;;
  total_width <- get dims "width" (num 0) ;;
  max_height <- get dims "height" (num 0) ;;
  thickness <- get dims "thickness" (num 0) ;;
  width_result <- _validate_width_sum total_width sections ;;
  let feedback1 := add_feedback [] "width_correction" width_result in
  taper_result <- _validate_taper sections height_profile ;;
  let feedback2 := add_feedback feedback1 "taper_correction" taper_result in
  hole_result <- _validate_holes holes sections thickness ;;
  let feedback3 := add_feedback feedback2 "hole_correction" hole_result in
  height_result <- _validate_heights sections height_profile ;;
  let feedback4 := add_feedback feedback3 "height_correction" height_result in
  edge_result <- _validate_edge_distances holes sections thickness ;;
  OK ([width_result; taper_result; hole_result; height_result; edge_result],
      feedback4).

Definition failed_with (sev : string) (v : ValidationResult) : bool :=
  negb (passed v) && String.eqb (severity v) sev.

(** The judgment [review] computes from the list of validations. *)
Definition judge (self : JudgeAgent) (validations : list ValidationResult)
  (fb : dict) : ReviewResult * JudgeAgent :=
  let errs := filter (failed_with "error") validations in
  let warns := filter (failed_with "warning") validations in
  let approved := (List.length errs =? 0)%nat in
  let total_checks := List.length validations in
  let passed_checks := List.length (filter passed validations) in
  let confidence :=
    if (0 <? total_checks)%nat then INR passed_checks / INR total_checks
    else 0 in
  let judgment :=
    mkJudgment approved confidence validations fb (iteration self) in
  let self' :=
    mkJudgeAgent (review_history self ++ [judgment])%list (iteration self)
      (max_iterations self) in
  (mkReviewResult approved confidence fb (map message errs)
     (map message warns) (iteration self')
     (iteration self' <? max_iterations self')%Z,
   self').

(** [JudgeAgent.review]: the counter is bumped before any check runs, so it
    stays bumped when a check raises. *)
Definition review (self : JudgeAgent) (extraction : value)
  : result ReviewResult * JudgeAgent :=
  let self1 :=
    mkJudgeAgent (review_history self) (iteration self + 1)
      (max_iterations self) in
  match run_checks extraction with
  | Raise e => (Raise e, self1)
  | OK (validations, fb) =>
      let (r, self2) := judge self1 validations fb in (OK r, self2)
  end.

End Validators.

(** What every check result looks like: its name, one of the two
    severities the checks use, and no correction on success. *)
Definition shape (name : string) (v : ValidationResult) : Prop :=
  check_name v = name /\
  (severity v = "error" \/ severity v = "warning") /\
  (passed v = true -> correction v = None).

(** *** Well-typed extractions

    Dicts, lists and numbers in the places where [review] expects them; a
    missing key is always allowed, since every read has a default. *)







(** The width a section contributes to the sum of [_validate_width_sum]. *)
Definition width_of (s : value) : result R :=
  w <- get s "width" (VNum 0) ;; as_num w.


End Judge.

(** ** [scripts/precision_calculator.py] *)

Module Precision.
Import Py.

(** What a call can reach: the extraction object it is handed (a mutable
    dict in Python) and the console.  A computation returns its outcome
    together with the world it leaves behind, also when it raises. *)
Record World : Type := mkWorld {
  extraction : value;
  stdout : list string
}.

Definition M (A : Type) : Type := World -> result A * World.

Definition bindM {A B : Type} (m : M A) (k : A -> M B) : M B :=
  fun w =>
    match m w with
    | (OK a, w') => k a w'
    | (Raise e, w') => (Raise e, w')
    end.

(** A computation on values already read: it cannot reach the world. *)
Definition lift {A : Type} (r : result A) : M A := fun w => (r, w).

(** [print(s)], which the command-line tools call and the calculators do
    not: it leaves a line on the console. *)
Definition print (s : string) : M unit :=
  fun w => (OK tt, mkWorld (extraction w) (stdout w ++ [s])%list).

(** [extraction.get(k, default)]: a read of the argument object. *)
Definition extraction_get (k : string) (default : value) : M value :=
  fun w => (get (extraction w) k default, w).

Notation "x <~ m ;; k" := (bindM m (fun x => k))
  (at level 61, m at next level, right associativity) : py_scope.

(** [sum(s.get("width", 0) for s in sections)]. *)
Fixpoint sum_widths (acc : value) (sections : list value) : result value :=
  match sections with
  | [] => OK acc
  | s :: rest =>
      w <- get s "width" (VNum 0) ;;
      acc' <- add acc w ;;
      sum_widths acc' rest
  end.

(** [sorted(sections, key=lambda s: s.get("x_offset", 0))]: the keys are
    computed first, then a stable sort orders the sections by them. *)
Fixpoint sort_keys (sections : list value) : result (list (R * value)) :=
  match sections with
  | [] => OK []
  | s :: rest =>
      k <- get s "x_offset" (VNum 0) ;;
      x <- as_num k ;;
      ks <- sort_keys rest ;;
      OK ((x, s) :: ks)
  end.

Fixpoint insert (x : R * value) (l : list (R * value)) : list (R * value) :=
  match l with
  | [] => [x]
  | y :: l' => if Rleb (fst x) (fst y) then x :: l else y :: insert x l'
  end.

Definition sorted_by_offset (sections : list value) : result (list value) :=
  ks <- sort_keys sections ;;
  OK (map snd (fold_right insert [] ks)).

(** The continuity loop: the flag and [expected_offset] when the loop ends,
    by exhaustion or by [break]. *)
Fixpoint continuity_loop (tolerance expected_offset : value)
  (sorted_sections : list value) : result (bool * value) :=
  match sorted_sections with
  | [] => OK (true, expected_offset)
  | section :: rest =>
      offset <- get section "x_offset" (VNum 0) ;;
      width <- get section "width" (VNum 0) ;;
      d <- sub offset expected_offset ;;
      a <- abs d ;;
      gap <- gt a tolerance ;;
      if gap then OK (false, expected_offset)
      else
        next <- add offset width ;;
        continuity_loop tolerance next rest
  end.

Definition calculate_section_positions : M bool :=
  dimensions <~ extraction_get "dimensions" (VDict []) ;;
  sections <~ extraction_get "sections" (VList []) ;;
  lift (
    total_width <- get dimensions "width" (VNum 0) ;;
    total_height <- get dimensions "height" (VNum 0) ;;
    if negb (truthy sections) then
      wide <- gt total_width (VNum 0) ;;
      if wide then gt total_height (VNum 0) else OK false
    else
      items <- iter sections ;;
      section_width_sum <- sum_widths (VNum 0) items ;;
      let tolerance := VNum (1/10) in
      d <- sub section_width_sum total_width ;;
      a <- abs d ;;
      width_valid <- le a tolerance ;;
      sorted_sections <- sorted_by_offset items ;;
      r <- continuity_loop tolerance (VNum 0) sorted_sections ;;
      d' <- sub (snd r) total_width ;;
      a' <- abs d' ;;
      off <- gt a' tolerance ;;
      let continuity_valid := if off then false else fst r in
      OK (width_valid && continuity_valid)).

(** The inner [for j, other in enumerate(holes)] loop for hole [i]:
    [true] when it runs to the end, [false] when it returns [False]. *)
Fixpoint spacing_loop (i j : Z) (x y diameter : value) (holes : list value)
  : result bool :=
  match holes with
  | [] => OK true
  | other :: rest =>
      if (i >=? j)%Z then spacing_loop i (j + 1)%Z x y diameter rest
      else
        ox <- get other "x" (VNum 0) ;;
        oy <- get other "y" (VNum 0) ;;
        od <- get other "diameter" (VNum 0) ;;
        dx <- sub x ox ;;
        dx2 <- pow2 dx ;;
        dy <- sub y oy ;;
        dy2 <- pow2 dy ;;
        s <- add dx2 dy2 ;;
        distance <- math_sqrt s ;;
        m <- max diameter od ;;
        min_spacing <- mul m (VNum 2) ;;
        close <- lt distance min_spacing ;;
        if close then OK false
        else spacing_loop i (j + 1)%Z x y diameter rest
  end.

(** A chain of [if c: return False] tests, evaluated in order. *)
Fixpoint none_of (tests : list (result bool)) : result bool :=
  match tests with
  | [] => OK true
  | t :: rest => c <- t ;; if c then OK false else none_of rest
  end.

(** The outer [for i, hole in enumerate(holes)] loop; [all_holes] is the
    list the inner loop walks. *)
Fixpoint holes_loop (i : Z) (holes all_holes : list value)
  (width height min_edge_distance : value) : result bool :=
  match holes with
  | [] => OK true
  | hole :: rest =>
      x <- get hole "x" (VNum 0) ;;
      y <- get hole "y" (VNum 0) ;;
      diameter <- get hole "diameter" (VNum 0) ;;
      radius <- div diameter (VNum 2) ;;
      placed <- none_of
        [ (c <- le x (VNum 0) ;; if c then OK true else le y (VNum 0));
          (l <- sub x radius ;; lt l min_edge_distance);
          (r <- add x radius ;; b <- sub width min_edge_distance ;; gt r b);
          (l <- sub y radius ;; lt l min_edge_distance);
          (r <- add y radius ;; b <- sub height min_edge_distance ;; gt r b) ] ;;
      if placed then
        spaced <- spacing_loop i 0 x y diameter all_holes ;;
        if spaced then
          holes_loop (i + 1)%Z rest all_holes width height min_edge_distance
        else OK false
      else OK false
  end.

Definition calculate_hole_positions : M bool :=
  dimensions <~ extraction_get "dimensions" (VDict []) ;;
  holes <~ extraction_get "holes" (VList []) ;;
  lift (
    width <- get dimensions "width" (VNum 0) ;;
    height <- get dimensions "height" (VNum 0) ;;
    thickness <- get dimensions "thickness" (VNum 0) ;;
    if negb (truthy holes) then OK true
    else
      thick <- gt thickness (VNum 0) ;;
      min_edge_distance <-
        (if thick then
           doubled <- mul thickness (VNum 2) ;;
           max doubled (VNum 25)
         else OK (VNum 25)) ;;
      items <- iter holes ;;
      holes_loop 0 items items width height min_edge_distance).

(** [min_thickness_map], in insertion order; [None] is [float("inf")]. *)
Definition min_thickness_map : list (option R * R) :=
  [(Some 1000000, 4); (Some 2000000, 6); (Some 4000000, 8);
   (Some 8000000, 10); (None, 12)].

Fixpoint min_thickness_for (panel_area : R) (items : list (option R * R))
  (min_thickness : R) : R :=
  match items with
  | [] => min_thickness
  | (area_limit, min_t) :: rest =>
      match area_limit with
      | Some limit =>
          if Rleb panel_area limit then min_t
          else min_thickness_for panel_area rest min_thickness
      | None => min_t
      end
  end.

(** The hole loop of [calculate_geometric_feasibility]: [true] when it runs
    to the end. *)
Fixpoint feasible_holes (holes : list value) (width height thickness : value)
  : result bool :=
  match holes with
  | [] => OK true
  | hole :: rest =>
      diameter <- get hole "diameter" (VNum 0) ;;
      skip <- le diameter (VNum 0) ;;
      if skip then feasible_holes rest width height thickness
      else
        thin <- lt diameter thickness ;;
        if thin then OK false
        else
          m <- min width height ;;
          max_hole <- div m (VNum 3) ;;
          big <- gt diameter max_hole ;;
          if big then OK false
          else feasible_holes rest width height thickness
  end.

Definition edge_requirements : list (string * R) :=
  [("flat_polished", 3); ("beveled", 6); ("pencil_polished", 3);
   ("mitered", 10); ("ogee", 12)].

Fixpoint assoc (k : string) (l : list (string * R)) : option R :=
  match l with
  | [] => None
  | (k', v) :: l' => if String.eqb k k' then Some v else assoc k l'
  end.

(** [edge_requirements.get(edge_type, 3)]: a list or a dict cannot be
    hashed; any other key that is not one of the strings is absent. *)
Definition edge_requirement (edge_type : value) : result value :=
  match edge_type with
  | VStr s => OK (VNum (match assoc s edge_requirements with
                        | Some t => t
                        | None => 3
                        end))
  | VList _ | VDict _ => Raise TypeError
  | _ => OK (VNum 3)
  end.

(** ["tempered" in glass_type.lower()]: only a string has [lower]. *)
Definition is_tempered (glass_type : value) : result bool :=
  match glass_type with
  | VStr s => OK (contains "tempered" (lower s))
  | _ => Raise AttributeError
  end.

Definition calculate_geometric_feasibility : M bool :=
  dimensions <~ extraction_get "dimensions" (VDict []) ;;
  holes <~ extraction_get "holes" (VList []) ;;
  edge_type <~ extraction_get "edge_type" (VStr "flat_polished") ;;
  glass_type <~ extraction_get "glass_type" (VStr "clear_tempered") ;;
  lift (
    width <- get dimensions "width" (VNum 0) ;;
    height <- get dimensions "height" (VNum 0) ;;
    thickness <- get dimensions "thickness" (VNum 0) ;;
    sized <- none_of [le width (VNum 0); le height (VNum 0);
                      le thickness (VNum 0)] ;;
    if negb sized then OK false
    else
      hi <- max width height ;;
      lo <- min width height ;;
      aspect_ratio <- div hi lo ;;
      long <- gt aspect_ratio (VNum 10) ;;
      if long then OK false
      else
        panel_area <- mul width height ;;
        area <- as_num panel_area ;;
        let min_thickness := min_thickness_for area min_thickness_map 4 in
        thin <- lt thickness (VNum min_thickness) ;;
        if thin then OK false
        else
          items <- iter holes ;;
          drilled <- feasible_holes items width height thickness ;;
          if negb drilled then OK false
          else
            min_edge_t <- edge_requirement edge_type ;;
            weak <- lt thickness min_edge_t ;;
            if weak then OK false
            else
              tempered <- is_tempered glass_type ;;
              if tempered then
                small <- none_of [lt width (VNum 100); lt height (VNum 100)] ;;
                OK small
              else OK true).




(** A computation that leaves the world as it found it, whatever its
    outcome. *)
Definition read_only {A : Type} (m : M A) : Prop :=
  forall w, snd (m w) = w.


(** The cross-section area of a hole of diameter [d]. *)
Definition hole_area (d : R) : R := PI * (d / 2) ^ 2.

End Precision.

(** ** The polygon kernel and the measurement type of the specification *)

Module Kernel.
Import Py.

(** Modelled from the spec: the polygon geometry kernel of section 4.4 is
    not among the sources.  A point is an (x, y) pair of reals. *)
Definition Point : Type := (R * R)%type.

(** Modelled from the spec: the cyclic adjacent pairs of a vertex list,
    every vertex with its successor and the last one with the first. *)
Definition cyclic_pairs (vs : list Point) : list (Point * Point) :=
  combine vs (tl vs ++ firstn 1 vs)%list.

(** Modelled from the spec: the term [x_i * y_(i+1) - x_(i+1) * y_i] of the
    shoelace formula. *)
Definition cross (p q : Point) : R := fst p * snd q - fst q * snd p.

(** Modelled from the spec: the shoelace sum over cyclic adjacent pairs. *)
Definition shoelace (vs : list Point) : R :=
  Rsum (map (fun pq => cross (fst pq) (snd pq)) (cyclic_pairs vs)).

(** Modelled from the spec: area is [|shoelace| / 2], and 0 for fewer than
    three vertices. *)
Definition area (vs : list Point) : R :=
  if (List.length vs <? 3)%nat then 0 else Rabs (shoelace vs) / 2.

(** Modelled from the spec: the Euclidean length of the edge from [p] to
    [q]. *)
Definition edge_length (p q : Point) : R :=
  sqrt ((fst q - fst p) ^ 2 + (snd q - snd p) ^ 2).

(** Modelled from the spec: perimeter is the sum of the Euclidean edge
    lengths over cyclic adjacent pairs. *)
Definition perimeter (vs : list Point) : R :=
  Rsum (map (fun pq => edge_length (fst pq) (snd pq)) (cyclic_pairs vs)).

(** Modelled from the spec: the arithmetic mean of the vertices, the
    fallback of the centroid. *)
Definition mean (vs : list Point) : Point :=
  (Rsum (map fst vs) / INR (List.length vs),
   Rsum (map snd vs) / INR (List.length vs)).

(** Modelled from the spec: the area-weighted centroid
    [(1 / 6A) * sum (p_i + p_(i+1)) * cross(p_i, p_(i+1))] with [A] the
    signed area; when [|A|] is below the degeneracy threshold [eps], which
    the spec only calls near zero, the mean of the vertices is returned. *)
Definition centroid (eps : R) (vs : list Point) : Point :=
  let A := shoelace vs / 2 in
  if Rltb (Rabs A) eps then mean vs
  else
    (Rsum (map (fun pq => (fst (fst pq) + fst (snd pq))
                          * cross (fst pq) (snd pq)) (cyclic_pairs vs))
       / (6 * A),
     Rsum (map (fun pq => (snd (fst pq) + snd (snd pq))
                          * cross (fst pq) (snd pq)) (cyclic_pairs vs))
       / (6 * A)).

End Kernel.

Module Measurement.

(** Modelled from the spec: the measurement type of section 3 is not among
    the sources.  The three distributions a measurement can declare. *)
Inductive distribution : Type := uniform | normal | triangular.

(** Modelled from the spec: the attributes of a [MeasurementRange]. *)
Record MeasurementRange : Type := mkMeasurementRange {
  min : R;
  max : R;
  best_estimate : R;
  dist : distribution;
  confidence : R;
  unit : string
}.

(** Modelled from the spec: the configuration error of a construction that
    matches none of the three shapes. *)
Inductive ConfigurationError : Type := NoShape.

(** Modelled from the spec: the constructor of [MeasurementRange].  If
    [min] and [max] are both given they win and the best estimate is their
    midpoint; else [value] with [uncertainty] gives
    [value -/+ uncertainty]; else [value] alone is exact; with none of the
    three shapes construction fails. *)
Definition construct (min_val max_val value uncertainty : option R)
  (d : distribution) (conf : R) (u : string)
  : MeasurementRange + ConfigurationError :=
  match min_val, max_val with
  | Some lo, Some hi => inl (mkMeasurementRange lo hi ((lo + hi) / 2) d conf u)
  | _, _ =>
      match value, uncertainty with
      | Some v, Some unc => inl (mkMeasurementRange (v - unc) (v + unc) v d conf u)
      | Some v, None => inl (mkMeasurementRange v v v d conf u)
      | None, _ => inr NoShape
      end
  end.

(** Modelled from the spec: [range_width = max - min]. *)
Definition range_width (m : MeasurementRange) : R := max m - min m.

(** Modelled from the spec: [is_exact] holds when the range width is below
    the tolerance [tol]. *)
Definition is_exact (tol : R) (m : MeasurementRange) : bool :=
  Py.Rltb (range_width m) tol.

(** Modelled from the spec: [is_range] holds when the range width is above
    the tolerance [tol]. *)
Definition is_range (tol : R) (m : MeasurementRange) : bool :=
  Py.Rltb tol (range_width m).

End Measurement.

(** ** Sample inputs *)

Module Samples.
Import Py.

(** A stand-in for the f-string rendering of values. *)
Definition render (v : value) : string := "".

(** One tapered door section that (wrongly) declares a notch, and one hole
    in the middle of it. *)
Definition door_panel : value :=
  VDict
    [("dimensions",
      VDict [("width", VNum 1000); ("height", VNum 2000);
             ("thickness", VNum 10)]);
     ("sections",
      VList [VDict [("type", VStr "door"); ("width", VNum 1000);
                    ("x_offset", VNum 0); ("height", VNum 2000);
                    ("has_notch", VBool true)]]);
     ("holes",
      VList [VDict [("x", VNum 500); ("y", VNum 1000);
                    ("diameter", VNum 10)]])].

(** A panel whose single section is 3 wide where 10 is declared. *)
Definition narrow_sections : list value := [VDict [("width", VNum 3)]].

(** The square of the specification's test list. *)
Definition square : list Kernel.Point := [(0, 0); (10, 0); (10, 10); (0, 10)].

(** No holes, and dimensions no panel can have. *)
Definition negative_panel : value :=
  VDict
    [("dimensions",
      VDict [("width", VNum (-5)); ("height", VNum 0);
             ("thickness", VNum (-1))]);
     ("holes", VList [])].


(** No thickness given, and a hole wider than the panel. *)
Definition flat_panel : value :=
  VDict
    [("dimensions", VDict [("width", VNum 10); ("height", VNum 10)]);
     ("holes", VList [VDict [("diameter", VNum 100)]])].

End Samples.

(** ** Numeric readings *)

Module Readings.
Import Py.

(** The number a dict holds under [k], read as the checks read it:
    [o.get(k, default)] used as a number. *)
Definition number_at (k : string) (default : R) (o : value) : result R :=
  v <- get o k (VNum default) ;; as_num v.



End Readings.

(** ** The rest of [scripts/agent2_judge.py] *)

Module JudgeRun.
Import Py Judge.

(** [JudgeAgent.get_summary]: two keys before the first stored judgment,
    four afterwards. *)
Definition get_summary (self : JudgeAgent) : dict :=
  if negb (nonempty (review_history self)) then
    [("total_reviews", VNum 0); ("approval_rate", VNum 0)]
  else
    [("total_reviews", VNum (INR (List.length (review_history self))));
     ("approval_rate",
      VNum (INR (List.length (filter j_approved (review_history self)))
            / INR (List.length (review_history self))));
     ("iterations", VNum (IZR (iteration self)));
     ("final_approved",
      VBool (last (map j_approved (review_history self)) false))].

(** [str(b)] of a boolean. *)
Definition str_bool (b : bool) : string := if b then "True" else "False".

(** The newline character. *)
Definition nl : string := String (ascii_of_nat 10) EmptyString.

Section Loop.

(** The f-string renderings: [{x}], [{x:.1f}], [{x:.1%}] and a list of
    strings. *)
Variable py_str : value -> string.
Variable fmt1 : value -> string.
Variable fmt_pct : R -> string.
Variable fmt_list : list string -> string.

(** The creator agent is any object with the two methods the loop calls;
    each may raise and may change the creator. *)
Variable Creator : Type.
Variable get_current_extraction : Creator -> result value * Creator.
Variable apply_feedback : Creator -> dict -> result value * Creator.

(** The two agents and the console, as the loop leaves them. *)
Record LoopState : Type := mkLoopState {
  creator : Creator;
  judge : JudgeAgent;
  console : list string
}.

(** The lines one iteration prints after the review. *)
Definition report (i : Z) (r : ReviewResult) : list string :=
  ([(nl ++ "Iteration " ++ str_int (i + 1) ++ ":")%string;
    ("  Approved: " ++ str_bool (approved r))%string;
    ("  Confidence: " ++ fmt_pct (confidence r))%string]
   ++ (if nonempty (errors r)
       then [("  Errors: " ++ fmt_list (errors r))%string]
       else [])
   ++ (if nonempty (warnings r)
       then [("  Warnings: " ++ fmt_list (warnings r))%string]
       else []))%list.

(** The code after the loop: [return False, final_extraction]. *)
Definition finish (st : LoopState) : result (bool * value) * LoopState :=
  match get_current_extraction (creator st) with
  | (OK final_extraction, c) =>
      (OK (false, final_extraction), mkLoopState c (judge st) (console st))
  | (Raise e, c) => (Raise e, mkLoopState c (judge st) (console st))
  end.

(** [for i in range(max_iterations)]: [n] iterations are left and [i] is
    the loop index. *)
Fixpoint loop (n : nat) (i : Z) (st : LoopState)
  : result (bool * value) * LoopState :=
  match n with
  | O => finish st
  | S n' =>
      match get_current_extraction (creator st) with
      | (Raise e, c) => (Raise e, mkLoopState c (judge st) (console st))
      | (OK extraction, c) =>
          match review py_str fmt1 (judge st) extraction with
          | (Raise e, j) => (Raise e, mkLoopState c j (console st))
          | (OK result, j) =>
              let out := (console st ++ report i result)%list in
              if approved result then
                (OK (true, extraction),
                 mkLoopState c j
                   (out ++ ["  APPROVED - No further corrections needed"])%list)
              else if nonempty (feedback result) then
                match apply_feedback c (feedback result) with
                | (Raise e, c') => (Raise e, mkLoopState c' j out)
                | (OK corrections_made, c') =>
                    if truthy corrections_made then
                      loop n' (i + 1)%Z
                        (mkLoopState c' j
                           (out ++ ["  Corrections applied, re-validating..."])%list)
                    else
                      finish
                        (mkLoopState c' j
                           (out ++ ["  No corrections could be applied"])%list)
                end
              else
                finish (mkLoopState c j (out ++ ["  No feedback provided"])%list)
          end
      end
  end.

(** Whether a review of [e] returns rather than raises. *)
Definition returns (e : value) : bool :=
  match Judge.run_checks py_str fmt1 e with
  | OK _ => true
  | Raise _ => false
  end.

(** The agent after it has reviewed the extractions one after the other. *)
Fixpoint review_all (self : JudgeAgent) (es : list value) : JudgeAgent :=
  match es with
  | [] => self
  | e :: rest => review_all (snd (review py_str fmt1 self e)) rest
  end.

(** [run_validation_loop(creator_agent, judge_agent, max_iterations)];
    [range] of a non-positive bound is empty. *)
Definition run_validation_loop (creator_agent : Creator)
  (judge_agent : JudgeAgent) (max_iterations : Z) (out : list string)
  : result (bool * value) * LoopState :=
  loop (Z.to_nat max_iterations) 0
    (mkLoopState creator_agent judge_agent out).

End Loop.

End JudgeRun.

(** ** [commands/validate-extraction.py] *)

Module ValidateCommand.
Import Py Precision.

(** What [load_extraction] finds at [json_path]: no file, a file that is
    not JSON (with the decoder's message), or the parsed document. *)
Inductive file : Type :=
| Missing
| Invalid (err : string)
| Parsed (data : value).

(** How a call ends: it returns, it calls [sys.exit(code)], or it raises. *)
Inductive outcome (A : Type) : Type :=
| Returned (a : A)
| Exited (code : Z)
| Raised (e : exn).

Arguments Returned {A} a.
Arguments Exited {A} code.
Arguments Raised {A} e.

(** ["-" * 40]. *)
Definition rule : string := String.concat "" (repeat "-" 40).

Section Command.

Variable py_str : value -> string.

(** [load_extraction(json_path)]: [data.get("extraction", data)] on the
    parsed document; only the decoder's error is caught. *)
Definition load_extraction (json_path : string) (f : file)
  (out : list string) : outcome value * list string :=
  match f with
  | Missing =>
      (Exited 1,
       (out ++ [("Error: JSON file not found: " ++ json_path)%string])%list)
  | Invalid err =>
      (Exited 1, (out ++ [("Error: Invalid JSON file: " ++ err)%string])%list)
  | Parsed data =>
      match get data "extraction" data with
      | OK e => (Returned e, out)
      | Raise x => (Raised x, out)
      end
  end.

(** The [for check, passed in results.items()] loop: one line per check,
    and [all_passed] cleared by every failed one. *)
Fixpoint report_loop (results : list (string * bool)) (all_passed : bool)
  (out : list string) : bool * list string :=
  match results with
  | [] => (all_passed, out)
  | (check, passed) :: rest =>
      let status := if passed then "PASS" else "FAIL" in
      report_loop rest (if negb passed then false else all_passed)
        (out ++ [("  " ++ check ++ ": " ++ status)%string])%list
  end.

(** The [if args.verbose:] block; the first line is on the console before
    the second one is formatted. *)
Definition announce (json_path : string) (verbose : bool)
  (extraction : value) (out : list string) : result unit * list string :=
  if verbose then
    let out1 := (out ++ [("Validating: " ++ json_path)%string])%list in
    match get extraction "dimensions" (VDict []) with
    | OK dims =>
        (OK tt, (out1 ++ [("Dimensions: " ++ py_str dims)%string])%list)
    | Raise x => (Raise x, out1)
    end
  else (OK tt, out).

(** [validate_extraction(args)] with [args.json_path], [args.verbose] and
    what the path holds; the console is threaded through the calculators. *)
Definition validate_extraction (json_path : string) (verbose : bool)
  (f : file) (out : list string) : outcome Z * list string :=
  match load_extraction json_path f out with
  | (Exited code, out1) => (Exited code, out1)
  | (Raised x, out1) => (Raised x, out1)
  | (Returned extraction, out1) =>
      match announce json_path verbose extraction out1 with
      | (Raise x, out2) => (Raised x, out2)
      | (OK _, out2) =>
          match calculate_section_positions (mkWorld extraction out2) with
          | (Raise x, w1) => (Raised x, stdout w1)
          | (OK section_positions, w1) =>
              match calculate_hole_positions w1 with
              | (Raise x, w2) => (Raised x, stdout w2)
              | (OK hole_positions, w2) =>
                  match calculate_geometric_feasibility w2 with
                  | (Raise x, w3) => (Raised x, stdout w3)
                  | (OK geometric_feasibility, w3) =>
                      let out3 :=
                        (stdout w3
                           ++ [(JudgeRun.nl ++ "Validation Results:")%string; rule])%list in
                      let r :=
                        report_loop
                          [("section_positions", section_positions);
                           ("hole_positions", hole_positions);
                           ("geometric_feasibility", geometric_feasibility)]
                          true out3 in
                      let overall :=
                        if fst r then "PASSED" else "FAILED" in
                      (Returned (if fst r then 0 else 1)%Z,
                       (snd r ++ [rule; ("Overall: " ++ overall)%string])%list)
                  end
              end
          end
      end
  end.

End Command.

End ValidateCommand.

(** ** More sample inputs *)

Module MoreSamples.
Import Py Samples.

(** The entries of a dict. *)
Definition entries (v : value) : dict :=
  match v with VDict d => d | _ => [] end.

(** One section that is taller than the maximum. *)
Definition tall_sections : list value :=
  [VDict [("width", VNum 1000); ("height", VNum 6000)]].

(** One section over the whole panel, and a hole two millimetres from its
    left edge. *)
Definition full_section : value :=
  VList [VDict [("x_offset", VNum 0); ("width", VNum 1000);
                ("height", VNum 2000)]].

Definition edge_holes : list value :=
  [VDict [("x", VNum 2); ("y", VNum 1000); ("diameter", VNum 10)]].



(** The door panel with two entries no check asks for. *)
Definition annotated_door : dict :=
  ("height_profile", VList [VNum 84]) :: ("glass_type", VStr "float")
    :: entries door_panel.

(** Stand-ins for the renderings of a percentage and of a list. *)
Definition render_pct (x : R) : string := "".
Definition render_list (l : list string) : string := "".

(** A creator without state that offers the same extraction every time and
    applies no correction. *)
Definition offer (e : value) (c : unit) : result value * unit := (OK e, c).

Definition ignore_feedback (c : unit) (fb : dict) : result value * unit :=
  (OK (VBool false), c).

End MoreSamples.

(** * Properties *)

Import Py.

(** ** Comparisons on reals *)

Lemma Rleb_true (x y : R) : Rleb x y = true <-> x <= y.
Proof. unfold Rleb; destruct (Rle_dec x y); split; intros; auto; discriminate. Qed.

Lemma Rleb_false (x y : R) : Rleb x y = false <-> y < x.
Proof.
  unfold Rleb; destruct (Rle_dec x y); split; intros; auto; try discriminate; lra.
Qed.

Lemma Rltb_true (x y : R) : Rltb x y = true <-> x < y.
Proof. unfold Rltb; destruct (Rlt_dec x y); split; intros; auto; discriminate. Qed.

Lemma Rltb_false (x y : R) : Rltb x y = false <-> y <= x.
Proof.
  unfold Rltb; destruct (Rlt_dec x y); split; intros; auto; try discriminate; lra.
Qed.

Lemma Reqb_false (x y : R) : Reqb x y = false <-> x <> y.
Proof.
  unfold Reqb; destruct (Req_dec_T x y); split; intros; auto; try discriminate.
  contradiction.
Qed.

(** ** Taking a successful run apart *)

Ltac inv_ok H :=
  repeat match type of H with
  | bind ?m _ = OK _ =>
      let E := fresh "E" in
      destruct m eqn:E; cbn [bind] in H; [| discriminate H]
  | (if ?c then _ else _) = OK _ =>
      let E := fresh "E" in destruct c eqn:E
  | OK _ = OK _ => inversion H; subst; clear H
  | Raise _ = OK _ => discriminate H
  end.

Section JudgeFacts.

Import Judge.

Variable py_str : value -> string.
Variable fmt1 : value -> string.

Lemma shape_ok_result (name msg : string) : shape name (ok_result name msg).
Proof. repeat split; cbn; auto. Qed.

Lemma shape_mk (name msg sev : string) (c : option value) :
  sev = "error" \/ sev = "warning" ->
  shape name (mkValidationResult name false msg sev c).
Proof. intros; repeat split; cbn; auto; discriminate. Qed.

Hint Resolve shape_ok_result shape_mk : core.

Lemma width_sum_shape (total_width sections : value) (v : ValidationResult) :
  _validate_width_sum py_str total_width sections = OK v -> shape "width_sum" v.
Proof. unfold _validate_width_sum; intros H; inv_ok H; auto. Qed.

Lemma taper_loop_shape (sections : list value) :
  forall (i : Z) (v : ValidationResult),
    taper_loop py_str i sections = OK v -> shape "taper_validation" v.
Proof.
  induction sections as [| s rest IH]; intros i v H; cbn [taper_loop] in H.
  - inv_ok H; auto.
  - inv_ok H; eauto.
Qed.

Lemma taper_shape (sections hp : value) (v : ValidationResult) :
  _validate_taper py_str sections hp = OK v -> shape "taper_validation" v.
Proof.
  unfold _validate_taper; intros H; inv_ok H; eauto using taper_loop_shape.
Qed.

Lemma holes_shape (holes sections thickness : value) (v : ValidationResult) :
  _validate_holes py_str holes sections thickness = OK v ->
  shape "hole_positions" v.
Proof. unfold _validate_holes; intros H; inv_ok H; auto. Qed.

Lemma heights_shape (sections hp : value) (v : ValidationResult) :
  _validate_heights py_str sections hp = OK v -> shape "height_validation" v.
Proof. unfold _validate_heights; intros H; inv_ok H; auto. Qed.

Lemma edge_distances_shape (holes sections thickness : value)
  (v : ValidationResult) :
  _validate_edge_distances py_str fmt1 holes sections thickness = OK v ->
  shape "edge_distances" v.
Proof. unfold _validate_edge_distances; intros H; inv_ok H; auto. Qed.

Lemma shapes_names (ns : list string) (vs : list ValidationResult) :
  Forall2 shape ns vs -> map check_name vs = ns.
Proof.
  induction 1 as [| n v ns vs (Hn & _) _ IH]; cbn; [reflexivity |].
  now rewrite Hn, IH.
Qed.

Lemma shapes_all (ns : list string) (vs : list ValidationResult) :
  Forall2 shape ns vs -> Forall (fun v => exists n, shape n v) vs.
Proof. induction 1; constructor; eauto. Qed.

(** The five checks always come back in the same order. *)
Lemma run_checks_shapes (e : value) (vs : list ValidationResult) (fb : dict) :
  run_checks py_str fmt1 e = OK (vs, fb) ->
  Forall2 shape
    ["width_sum"; "taper_validation"; "hole_positions"; "height_validation";
     "edge_distances"] vs.
Proof.
  unfold run_checks; intros H; inv_ok H.
  repeat apply Forall2_cons; try apply Forall2_nil;
    eauto using width_sum_shape, taper_shape, holes_shape, heights_shape,
      edge_distances_shape.
Qed.

(** ** Numbers stay numbers *)
























(** ** The verdict of a review *)

Lemma no_failure_length {A : Type} (f : A -> bool) (l : list A) :
  (List.length (filter f l) =? 0)%nat = true <->
  forall x, In x l -> f x = false.
Proof.
  induction l as [| a l IH]; cbn.
  - split; [intros _ x [] | reflexivity].
  - destruct (f a) eqn:Ea; cbn.
    + split; [discriminate |].
      intros H. rewrite (H a) in Ea by auto. discriminate.
    + rewrite IH. split.
      * intros H x [<- | Hx]; auto.
      * intros H x Hx; auto.
Qed.

Lemma failed_with_true (sev : string) (v : ValidationResult) :
  failed_with sev v = true <-> passed v = false /\ severity v = sev.
Proof.
  unfold failed_with. rewrite andb_true_iff, negb_true_iff, String.eqb_eq.
  tauto.
Qed.

Lemma failed_message_listed (sev : string) (vs : list ValidationResult)
  (v : ValidationResult) :
  In v vs -> passed v = false -> severity v = sev ->
  In (message v) (map message (filter (failed_with sev) vs)).
Proof.
  intros Hin Hp Hs. apply in_map, filter_In. split; [assumption |].
  now apply failed_with_true.
Qed.

Lemma review_unfold (self : JudgeAgent) (e : value) (r : ReviewResult)
  (self' : JudgeAgent) :
  review py_str fmt1 self e = (OK r, self') ->
  exists vs fb,
    run_checks py_str fmt1 e = OK (vs, fb) /\
    (r, self') =
      judge (mkJudgeAgent (review_history self) (iteration self + 1)
               (max_iterations self)) vs fb.
Proof.
  unfold review. destruct (run_checks py_str fmt1 e) as [[vs fb] | ex].
  - destruct (judge _ vs fb) as [r0 s0] eqn:Ej. intros H.
    inversion H; subst. eauto.
  - discriminate.
Qed.

(** C1: [review] approves exactly when no check failed with severity
    ["error"]; every check that failed with severity ["warning"] has its
    message in the returned warnings, and a review whose failed checks are
    all warnings is approved. *)
Theorem review_approved_iff_no_error (self : JudgeAgent) (e : value)
  (r : ReviewResult) (self' : JudgeAgent) :
  review py_str fmt1 self e = (OK r, self') ->
  exists vs fb,
    run_checks py_str fmt1 e = OK (vs, fb) /\
    (approved r = true <->
       forall v, In v vs -> ~ (passed v = false /\ severity v = "error")) /\
    (forall v, In v vs -> passed v = false -> severity v = "warning" ->
       In (message v) (warnings r)) /\
    ((forall v, In v vs -> passed v = false -> severity v = "warning") ->
     approved r = true).
Proof.
  intros H. destruct (review_unfold _ _ _ _ H) as (vs & fb & Hrun & Hj).
  exists vs, fb. unfold judge in Hj. inversion Hj; subst; clear Hj.
  cbn [approved warnings].
  assert (Hiff : (List.length (filter (failed_with "error") vs) =? 0)%nat = true
                 <-> forall v, In v vs ->
                       ~ (passed v = false /\ severity v = "error")).
  { rewrite no_failure_length. split; intros Hall v Hin.
    - intros Hf. apply failed_with_true in Hf.
      rewrite (Hall v Hin) in Hf. discriminate.
    - destruct (failed_with "error" v) eqn:Ef; [| reflexivity].
      apply failed_with_true in Ef. now destruct (Hall v Hin). }
  split; [exact Hrun |]. split; [exact Hiff |]. split.
  - intros v Hin Hp Hs. now apply failed_message_listed.
  - intros Hall. apply Hiff. intros v Hin [Hp Hs].
    specialize (Hall v Hin Hp). rewrite Hs in Hall. discriminate.
Qed.


(** C5 (amended): every [ValidationResult] that [review] produces carries
    the fields [check_name], [passed], [message], [severity] and
    [correction]; the five results are named after their checks, use the
    severities ["error"] and ["warning"] only, and carry no correction when
    the check passed. *)
Theorem validation_results_carry_check_fields (e : value)
  (vs : list ValidationResult) (fb : dict) :
  run_checks py_str fmt1 e = OK (vs, fb) ->
  map check_name vs =
    ["width_sum"; "taper_validation"; "hole_positions"; "height_validation";
     "edge_distances"] /\
  Forall (fun v =>
            map fst (ValidationResult_vars v) = ValidationResult_fields /\
            (severity v = "error" \/ severity v = "warning") /\
            (passed v = true -> correction v = None)) vs.
Proof.
  intros Hrun. pose proof (run_checks_shapes e vs fb Hrun) as Hshapes.
  split.
  - now apply shapes_names.
  - eapply Forall_impl; [| exact (shapes_all _ _ Hshapes)].
    intros v (n & _ & Hs & Hc). auto.
Qed.

(** C6 (amended): two reviews of one extraction in succession agree on
    [approved], [confidence], [feedback], [errors] and [warnings]; the
    agent counts its reviews, so [iteration] is one higher the second time
    and [can_continue] follows it. *)
Theorem review_twice_same_verdict (self : JudgeAgent) (e : value)
  (r1 r2 : ReviewResult) (self1 self2 : JudgeAgent) :
  review py_str fmt1 self e = (OK r1, self1) ->
  review py_str fmt1 self1 e = (OK r2, self2) ->
  approved r1 = approved r2 /\ confidence r1 = confidence r2 /\
  feedback r1 = feedback r2 /\ errors r1 = errors r2 /\
  warnings r1 = warnings r2 /\
  r_iteration r2 = (r_iteration r1 + 1)%Z /\
  can_continue r2 = (r_iteration r2 <? max_iterations self)%Z.
Proof.
  intros H1 H2.
  destruct (review_unfold _ _ _ _ H1) as (vs & fb & Hrun & Hj1).
  destruct (review_unfold _ _ _ _ H2) as (vs' & fb' & Hrun' & Hj2).
  rewrite Hrun in Hrun'. inversion Hrun'; subst vs' fb'.
  unfold judge in Hj1, Hj2. inversion Hj1; subst; clear Hj1.
  inversion Hj2; subst; clear Hj2. cbn. repeat split; reflexivity.
Qed.

End JudgeFacts.

(** ** Evaluation on concrete inputs *)

Ltac real_side :=
  unfold Rabs, Rmax, Rmin;
  repeat match goal with
  | |- context [Rcase_abs ?x] => destruct (Rcase_abs x)
  | |- context [Rle_dec ?x ?y] => destruct (Rle_dec x y)
  end;
  lra.

Ltac eval_cmp :=
  match goal with
  | |- context [Rleb ?x ?y] =>
      first [ rewrite (proj2 (Rleb_true x y)) by real_side
            | rewrite (proj2 (Rleb_false x y)) by real_side ]
  | |- context [Rltb ?x ?y] =>
      first [ rewrite (proj2 (Rltb_true x y)) by real_side
            | rewrite (proj2 (Rltb_false x y)) by real_side ]
  | |- context [Reqb ?x ?y] =>
      rewrite (proj2 (Reqb_false x y)) by real_side
  end.

Ltac eval_py := repeat first [progress cbn | eval_cmp].

Section JudgeSamples.

Import Judge Samples.

Ltac run_review :=
  unfold review, run_checks, door_panel; eval_py; reflexivity.


Lemma review_approved_iff_no_error_witness :
  exists r self',
    review render render init door_panel = (OK r, self') /\
    approved r = true /\
    warnings r = ["Door should NOT have a notch - only tapered geometry"] /\
    exists vs fb,
      run_checks render render door_panel = OK (vs, fb) /\
      (approved r = true <->
         forall v, In v vs -> ~ (passed v = false /\ severity v = "error")) /\
      (forall v, In v vs -> passed v = false -> severity v = "warning" ->
         In (message v) (warnings r)) /\
      ((forall v, In v vs -> passed v = false -> severity v = "warning") ->
       approved r = true).
Proof.
  eexists; eexists. split; [run_review |].
  split; [reflexivity |]. split; [reflexivity |].
  eapply (review_approved_iff_no_error render render init door_panel).
  run_review.
Defined.


(** C5, as stated, fails: a [ValidationResult] has none of the closure
    fields. *)
Lemma validation_result_lacks_closure_fields :
  ~ (forall (v : ValidationResult) (k : string),
       In k ["is_closed"; "is_valid"; "is_simple"; "error_x"; "error_y";
             "total_error"; "errors"; "warnings"] ->
       lookup k (ValidationResult_vars v) <> None).
Proof.
  intros H.
  apply (H (ok_result "width_sum" "Width sum OK") "is_closed").
  - left; reflexivity.
  - reflexivity.
Qed.

Lemma validation_results_carry_check_fields_witness :
  exists vs fb,
    run_checks render render door_panel = OK (vs, fb) /\
    map check_name vs =
      ["width_sum"; "taper_validation"; "hole_positions";
       "height_validation"; "edge_distances"] /\
    Forall (fun v =>
              map fst (ValidationResult_vars v) = ValidationResult_fields /\
              (severity v = "error" \/ severity v = "warning") /\
              (passed v = true -> correction v = None)) vs.
Proof.
  eexists; eexists. split; [unfold run_checks, door_panel; eval_py; reflexivity |].
  eapply (validation_results_carry_check_fields render render door_panel).
  unfold run_checks, door_panel; eval_py; reflexivity.
Defined.

(** C6, as stated, fails: the second result carries another [iteration]. *)
Lemma review_twice_differs :
  ~ (forall (py_str fmt1 : value -> string) (self : JudgeAgent) (e : value)
       (r1 r2 : ReviewResult) (self1 self2 : JudgeAgent),
       review py_str fmt1 self e = (OK r1, self1) ->
       review py_str fmt1 self1 e = (OK r2, self2) ->
       r1 = r2).
Proof.
  intros H.
  assert (E1 : exists r1 self1,
             review render render init door_panel = (OK r1, self1) /\
             r_iteration r1 = 1%Z /\
             exists r2 self2,
               review render render self1 door_panel = (OK r2, self2) /\
               r_iteration r2 = 2%Z).
  { eexists; eexists. split; [run_review |]. split; [reflexivity |].
    eexists; eexists. split; [run_review |]. reflexivity. }
  destruct E1 as (r1 & self1 & H1 & I1 & r2 & self2 & H2 & I2).
  specialize (H render render init door_panel r1 r2 self1 self2 H1 H2).
  subst r2. rewrite I1 in I2. discriminate.
Qed.

Lemma review_twice_same_verdict_witness :
  exists r1 self1 r2 self2,
    review render render init door_panel = (OK r1, self1) /\
    review render render self1 door_panel = (OK r2, self2) /\
    approved r1 = approved r2 /\ confidence r1 = confidence r2 /\
    feedback r1 = feedback r2 /\ errors r1 = errors r2 /\
    warnings r1 = warnings r2 /\
    r_iteration r2 = (r_iteration r1 + 1)%Z /\
    can_continue r2 = (r_iteration r2 <? max_iterations init)%Z.
Proof.
  do 4 eexists.
  split; [run_review |]. split; [run_review |].
  eapply (review_twice_same_verdict render render init door_panel);
    run_review.
Defined.

End JudgeSamples.

(** ** The width correction *)

Section WidthCorrection.

Import Judge Samples.

Variable py_str : value -> string.

Lemma sum_widths_spec (sections : list value) :
  forall (a : R) (v : value),
    sum_widths (VNum a) sections = OK v ->
    exists widths,
      Forall2 (fun s w => width_of s = OK w) sections widths /\
      v = VNum (a + Rsum widths).
Proof.
  induction sections as [| s rest IH]; intros a v H; cbn [sum_widths] in H;
    unfold num in H.
  - inversion H; subst. exists []. split; [constructor |].
    f_equal. unfold Rsum. cbn [fold_right]. lra.
  - destruct (get s "width" (VNum 0)) as [w |] eqn:Eg; cbn [bind] in H;
      [| discriminate].
    unfold add, num2 in H. cbn [as_num bind] in H.
    destruct (as_num w) as [x |] eqn:Ew; cbn [bind] in H; [| discriminate].
    destruct (IH _ _ H) as (widths & Hall & ->).
    exists (x :: widths). split.
    + constructor; [| assumption]. unfold width_of. now rewrite Eg.
    + f_equal. unfold Rsum. cbn [fold_right]. lra.
Qed.

Lemma corrected_widths_spec (c : R) (sections : list value) (widths : list R) :
  Forall2 (fun s w => width_of s = OK w) sections widths ->
  corrected_widths (VNum c) sections
  = OK (map (fun w => VNum (w + c)) widths).
Proof.
  induction 1 as [| s w rest ws Hw _ IH]; cbn [corrected_widths map];
    unfold num.
  - reflexivity.
  - unfold width_of in Hw.
    destruct (get s "width" (VNum 0)) as [v |]; cbn [bind] in Hw;
      [| discriminate].
    cbn [bind]. unfold add, num2. rewrite Hw. cbn [bind as_num].
    rewrite IH. reflexivity.
Qed.

Lemma Rsum_shift (c : R) (l : list R) :
  Rsum (map (fun w => w + c) l)
  = Rsum l + INR (List.length l) * c.
Proof.
  induction l as [| x l IH].
  - unfold Rsum. cbn. lra.
  - unfold Rsum in *. cbn [map fold_right List.length].
    rewrite IH, S_INR. lra.
Qed.

(** C8: when the width check fails on a non-empty section list, the
    correction holds each section width raised by the same share
    [(total_width - sum) / n] of the deficit, and the proposed widths sum to
    [total_width]. *)
Theorem width_correction_sums_to_total (total_width : value)
  (sections : list value) (v : ValidationResult) :
  sections <> [] ->
  _validate_width_sum py_str total_width (VList sections) = OK v ->
  passed v = false ->
  exists (total : R) (widths : list R),
    as_num total_width = OK total /\
    Forall2 (fun s w => width_of s = OK w) sections widths /\
    let share := (total - Rsum widths) / INR (List.length sections) in
    let proposed := map (fun w => w + share) widths in
    correction v =
      Some (VDict [("total_width", total_width);
                   ("section_widths", VList (map VNum proposed));
                   ("adjustment", VNum share)]) /\
    Rsum proposed = total.
Proof.
  intros Hne H Hp. unfold _validate_width_sum in H.
  assert (Htr : truthy (VList sections) = true).
  { destruct sections; [contradiction | reflexivity]. }
  rewrite Htr in H. cbn [negb iter bind] in H. unfold num in H.
  destruct (sum_widths (VNum 0) sections) as [ssum |] eqn:Es;
    cbn [bind] in H; [| discriminate].
  destruct (sum_widths_spec _ _ _ Es) as (widths & Hall & ->).
  unfold sub, abs, le, num2 in H. cbn [as_num bind] in H.
  destruct (as_num total_width) as [total |] eqn:Et; cbn [bind as_num] in H;
    [| discriminate].
  destruct (Rleb _ _) eqn:Ele in H.
  { inversion H; subst. discriminate. }
  cbn [len bind] in H. unfold div in H. cbn [as_num bind] in H.
  assert (Hn : INR (List.length sections) <> 0).
  { apply not_0_INR. destruct sections; [contradiction | discriminate]. }
  rewrite <- INR_IZR_INZ in H.
  rewrite (proj2 (Reqb_false _ _) Hn) in H. cbn [bind] in H.
  rewrite (corrected_widths_spec _ _ _ Hall) in H. cbn [bind] in H.
  inversion H; subst; clear H. cbn [correction].
  exists total, widths. split; [reflexivity |]. split; [assumption |].
  cbn zeta.
  assert (Hshare : (total - (0 + Rsum widths)) / INR (List.length sections)
                   = (total - Rsum widths) / INR (List.length sections)).
  { f_equal. lra. }
  rewrite Hshare. split.
  - rewrite map_map. reflexivity.
  - rewrite Rsum_shift.
    assert (Hlen : List.length widths = List.length sections).
    { symmetry. eapply Forall2_length; eassumption. }
    rewrite Hlen. field. exact Hn.
Qed.

End WidthCorrection.

Lemma width_correction_sums_to_total_witness :
  exists v,
    Judge._validate_width_sum Samples.render (VNum 10)
      (VList Samples.narrow_sections) = OK v /\
    Judge.passed v = false /\
    exists (total : R) (widths : list R),
      as_num (VNum 10) = OK total /\
      Forall2 (fun s w => Judge.width_of s = OK w) Samples.narrow_sections widths /\
      let share :=
        (total - Rsum widths)
        / INR (List.length Samples.narrow_sections) in
      let proposed := map (fun w => w + share) widths in
      Judge.correction v =
        Some (VDict [("total_width", VNum 10);
                     ("section_widths", VList (map VNum proposed));
                     ("adjustment", VNum share)]) /\
      Rsum proposed = total.
Proof.
  eexists. split; [| split].
  - unfold Judge._validate_width_sum, Samples.narrow_sections. eval_py.
    reflexivity.
  - reflexivity.
  - eapply (width_correction_sums_to_total Samples.render (VNum 10)
              Samples.narrow_sections).
    + discriminate.
    + unfold Judge._validate_width_sum, Samples.narrow_sections. eval_py.
      reflexivity.
    + reflexivity.
Defined.

(** ** The precision calculator *)

Section PrecisionFacts.

Import Precision Samples.




(** [read_only] does tell computations apart: printing is not read-only. *)
Lemma print_not_read_only (s : string) : ~ read_only (print s).
Proof.
  intros H. specialize (H (mkWorld VNone [])).
  apply (f_equal stdout) in H. discriminate H.
Qed.



(** C9: with the hole list empty or absent, [calculate_hole_positions]
    returns [True] whatever the [dimensions] dict holds. *)
Theorem hole_positions_true_without_holes (w : World) (d dims : dict) :
  extraction w = VDict d ->
  field d "dimensions" (VDict []) = VDict dims ->
  lookup "holes" d = None \/ lookup "holes" d = Some (VList []) ->
  fst (calculate_hole_positions w) = OK true.
Proof.
  intros He Hd Hh.
  assert (Hholes : field d "holes" (VList []) = VList []).
  { unfold field. destruct Hh as [-> | ->]; reflexivity. }
  unfold calculate_hole_positions, bindM, extraction_get, lift.
  rewrite He. cbn [get fst snd]. rewrite Hd, Hholes. reflexivity.
Qed.

End PrecisionFacts.

Lemma hole_positions_true_without_holes_witness :
  fst (Precision.calculate_hole_positions
         (Precision.mkWorld Samples.negative_panel [])) = OK true.
Proof.
  eapply (hole_positions_true_without_holes
            (Precision.mkWorld Samples.negative_panel [])).
  - reflexivity.
  - reflexivity.
  - right; reflexivity.
Defined.

Section WeightFacts.

Import Precision Samples.




End WeightFacts.

Lemma hole_area_200 : 100 * 100 < Rsum (map Precision.hole_area [200]).
Proof.
  unfold Rsum, Precision.hole_area. cbn [map fold_right].
  pose proof PI2_3_2. nra.
Qed.



(** ** The polygon kernel and the measurement type *)

Section KernelFacts.

Import Kernel.

Lemma edge_length_horizontal (x1 x2 y : R) :
  edge_length (x1, y) (x2, y) = Rabs (x2 - x1).
Proof.
  unfold edge_length. cbn [fst snd].
  replace ((x2 - x1) ^ 2 + (y - y) ^ 2) with (Rsqr (x2 - x1))
    by (unfold Rsqr; ring).
  apply sqrt_Rsqr_abs.
Qed.

Lemma edge_length_vertical (x y1 y2 : R) :
  edge_length (x, y1) (x, y2) = Rabs (y2 - y1).
Proof.
  unfold edge_length. cbn [fst snd].
  replace ((x - x) ^ 2 + (y2 - y1) ^ 2) with (Rsqr (y2 - y1))
    by (unfold Rsqr; ring).
  apply sqrt_Rsqr_abs.
Qed.

(** C3: on the square [(0,0), (10,0), (10,10), (0,10)] the kernel gives
    area 100, perimeter 40 and centroid (5, 5), for any degeneracy
    threshold of at most one unit. *)
Theorem square_area_perimeter_centroid (eps : R) :
  eps <= 1 ->
  area Samples.square = 100 /\
  perimeter Samples.square = 40 /\
  centroid eps Samples.square = (5, 5).
Proof.
  intros Heps.
  assert (Hshoe : shoelace Samples.square = 200).
  { unfold shoelace, cyclic_pairs, Samples.square, cross, Rsum.
    cbn [tl firstn app combine map fold_right fst snd]. lra. }
  split; [| split].
  - unfold area. cbn [List.length Samples.square Nat.ltb Nat.leb].
    rewrite Hshoe, Rabs_right by lra. lra.
  - unfold perimeter, cyclic_pairs, Samples.square, Rsum.
    cbn [tl firstn app combine map fold_right fst snd].
    rewrite !edge_length_horizontal, !edge_length_vertical.
    unfold Rabs. repeat destruct (Rcase_abs _); lra.
  - unfold centroid. rewrite Hshoe.
    assert (Hbig : Rltb (Rabs (200 / 2)) eps = false).
    { apply Rltb_false. rewrite Rabs_right by lra. lra. }
    rewrite Hbig.
    unfold cyclic_pairs, Samples.square, cross, Rsum.
    cbn [tl firstn app combine map fold_right fst snd].
    f_equal; field.
Qed.

End KernelFacts.

Lemma square_area_perimeter_centroid_witness :
  Kernel.area Samples.square = 100 /\
  Kernel.perimeter Samples.square = 40 /\
  Kernel.centroid (1 / 1000) Samples.square = (5, 5).
Proof.
  apply (square_area_perimeter_centroid (1 / 1000)). lra.
Defined.

(** C4: a [MeasurementRange] built from the single value 5 is exact, and
    its minimum, maximum and best estimate are all 5, for every positive
    tolerance of [is_exact]. *)
Theorem single_value_range_is_exact (tol : R)
  (d : Measurement.distribution) (conf : R) (u : string) :
  0 < tol ->
  exists m,
    Measurement.construct None None (Some 5) None d conf u = inl m /\
    Measurement.is_exact tol m = true /\
    Measurement.min m = 5 /\ Measurement.max m = 5 /\
    Measurement.best_estimate m = 5.
Proof.
  intros Htol. eexists. split; [reflexivity |].
  cbn [Measurement.min Measurement.max Measurement.best_estimate].
  repeat split.
  unfold Measurement.is_exact, Measurement.range_width.
  cbn [Measurement.min Measurement.max].
  apply Rltb_true. lra.
Qed.

Lemma single_value_range_is_exact_witness :
  exists m,
    Measurement.construct None None (Some 5) None Measurement.uniform
      (95 / 100) "ft" = inl m /\
    Measurement.is_exact (1 / 1000) m = true /\
    Measurement.min m = 5 /\ Measurement.max m = 5 /\
    Measurement.best_estimate m = 5.
Proof.
  apply (single_value_range_is_exact (1 / 1000)). lra.
Defined.

(** ** The calculators on the sample panel *)

Example door_panel_sections_valid :
  fst (Precision.calculate_section_positions
         (Precision.mkWorld Samples.door_panel [])) = OK true.
Proof.
  unfold Precision.calculate_section_positions, Precision.bindM,
    Precision.extraction_get, Precision.lift, Samples.door_panel.
  eval_py. reflexivity.
Qed.



(** * Further properties of the Judge *)

Section JudgeVerdict.

Import Judge.

Variable py_str : value -> string.
Variable fmt1 : value -> string.

(** The values [review] reads and the five results it collects. *)
Lemma run_checks_inv (e : value) (vs : list ValidationResult) (fb : dict) :
  run_checks py_str fmt1 e = OK (vs, fb) ->
  exists dims sections holes hp total_width thickness w t h g d,
    get e "dimensions" (VDict []) = OK dims /\
    get e "sections" (VList []) = OK sections /\
    get e "holes" (VList []) = OK holes /\
    get e "height_profile" (VList []) = OK hp /\
    get dims "width" (VNum 0) = OK total_width /\
    get dims "thickness" (VNum 0) = OK thickness /\
    _validate_width_sum py_str total_width sections = OK w /\
    _validate_taper py_str sections hp = OK t /\
    _validate_holes py_str holes sections thickness = OK h /\
    _validate_heights py_str sections hp = OK g /\
    _validate_edge_distances py_str fmt1 holes sections thickness = OK d /\
    vs = [w; t; h; g; d] /\
    fb = add_feedback
           (add_feedback
              (add_feedback (add_feedback [] "width_correction" w)
                 "taper_correction" t)
              "hole_correction" h)
           "height_correction" g.
Proof.
  unfold run_checks, num. intros H. inv_ok H.
  do 11 eexists. repeat (split; [reflexivity || eassumption |]).
  reflexivity.
Qed.

(** The severity each check uses. *)
Lemma width_sum_severity (tw sections : value) (v : ValidationResult) :
  _validate_width_sum py_str tw sections = OK v -> severity v = "error".
Proof. unfold _validate_width_sum; intros H; inv_ok H; reflexivity. Qed.

Lemma holes_severity (holes sections th : value) (v : ValidationResult) :
  _validate_holes py_str holes sections th = OK v -> severity v = "error".
Proof. unfold _validate_holes; intros H; inv_ok H; reflexivity. Qed.

Lemma heights_severity (sections hp : value) (v : ValidationResult) :
  _validate_heights py_str sections hp = OK v -> severity v = "error".
Proof. unfold _validate_heights; intros H; inv_ok H; reflexivity. Qed.

Lemma taper_loop_severity (sections : list value) :
  forall (i : Z) (v : ValidationResult),
    taper_loop py_str i sections = OK v ->
    passed v = false -> severity v = "warning".
Proof.
  induction sections as [| s rest IH]; intros i v H; cbn [taper_loop] in H.
  - inv_ok H; discriminate.
  - inv_ok H; eauto; cbn; intros; (reflexivity || discriminate).
Qed.

Lemma taper_severity (sections hp : value) (v : ValidationResult) :
  _validate_taper py_str sections hp = OK v ->
  passed v = false -> severity v = "warning".
Proof.
  unfold _validate_taper; intros H; inv_ok H. eauto using taper_loop_severity.
Qed.

Lemma edge_distances_severity (holes sections th : value)
  (v : ValidationResult) :
  _validate_edge_distances py_str fmt1 holes sections th = OK v ->
  passed v = false -> severity v = "warning".
Proof.
  unfold _validate_edge_distances; intros H; inv_ok H; cbn; intros;
    (reflexivity || discriminate).
Qed.

Lemma failed_error_of_error (v : ValidationResult) :
  severity v = "error" -> failed_with "error" v = negb (passed v).
Proof.
  intros Hs. unfold failed_with. rewrite Hs. cbn. apply andb_true_r.
Qed.

Lemma failed_error_of_warning (v : ValidationResult) :
  (passed v = false -> severity v = "warning") ->
  failed_with "error" v = false.
Proof.
  intros Hs. unfold failed_with. destruct (passed v); [reflexivity |].
  rewrite Hs by reflexivity. reflexivity.
Qed.

(** A review that returns, taken apart. *)
Lemma review_inv (self : JudgeAgent) (e : value) (r : ReviewResult)
  (self' : JudgeAgent) :
  review py_str fmt1 self e = (OK r, self') ->
  exists sections holes hp total_width thickness w t h g d fb,
    run_checks py_str fmt1 e = OK ([w; t; h; g; d], fb) /\
    _validate_width_sum py_str total_width sections = OK w /\
    _validate_taper py_str sections hp = OK t /\
    _validate_holes py_str holes sections thickness = OK h /\
    _validate_heights py_str sections hp = OK g /\
    _validate_edge_distances py_str fmt1 holes sections thickness = OK d /\
    get e "sections" (VList []) = OK sections /\
    fb = add_feedback
           (add_feedback
              (add_feedback (add_feedback [] "width_correction" w)
                 "taper_correction" t)
              "hole_correction" h)
           "height_correction" g /\
    (r, self') =
      judge (mkJudgeAgent (review_history self) (iteration self + 1)
               (max_iterations self)) [w; t; h; g; d] fb.
Proof.
  intros H. destruct (review_unfold _ _ _ _ _ _ H) as (vs & fb & Hrun & Hj).
  destruct (run_checks_inv _ _ _ Hrun)
    as (dims & ss & hs & hp & tw & th & w & t & h & g & d &
        _ & Hs & _ & _ & _ & _ & Hw & Ht & Hh & Hg & Hd & -> & Hfb).
  exists ss, hs, hp, tw, th, w, t, h, g, d, fb. tauto.
Qed.

(** X1: approval is decided by the width, hole-position and height checks
    alone: a failed taper or edge-distance check never blocks it. *)
Theorem approval_is_decided_by_three_checks (self : JudgeAgent) (e : value)
  (r : ReviewResult) (self' : JudgeAgent) :
  review py_str fmt1 self e = (OK r, self') ->
  exists w t h g d fb,
    run_checks py_str fmt1 e = OK ([w; t; h; g; d], fb) /\
    (approved r = true <->
       passed w = true /\ passed h = true /\ passed g = true).
Proof.
  intros H. destruct (review_inv _ _ _ _ H)
    as (ss & hs & hp & tw & th & w & t & h & g & d & fb &
        Hrun & Hw & Ht & Hh & Hg & Hd & _ & _ & Hj).
  exists w, t, h, g, d, fb. split; [exact Hrun |].
  unfold judge in Hj. inversion Hj; subst r self'; clear Hj.
  cbn [approved filter].
  rewrite (failed_error_of_error w (width_sum_severity _ _ _ Hw)).
  rewrite (failed_error_of_warning t (taper_severity _ _ _ Ht)).
  rewrite (failed_error_of_error h (holes_severity _ _ _ _ Hh)).
  rewrite (failed_error_of_error g (heights_severity _ _ _ Hg)).
  rewrite (failed_error_of_warning d (edge_distances_severity _ _ _ _ Hd)).
  destruct (passed w), (passed h), (passed g); cbn; intuition discriminate.
Qed.

Lemma three_way_count (vs : list ValidationResult) :
  Forall (fun v => severity v = "error" \/ severity v = "warning") vs ->
  (List.length (filter passed vs)
   + List.length (filter (failed_with "error") vs)
   + List.length (filter (failed_with "warning") vs))%nat
  = List.length vs.
Proof.
  induction 1 as [| v vs Hs _ IH]; [reflexivity |].
  assert (He : failed_with "error" v
               = negb (passed v) && String.eqb (severity v) "error")
    by reflexivity.
  assert (Hw : failed_with "warning" v
               = negb (passed v) && String.eqb (severity v) "warning")
    by reflexivity.
  cbn [filter]. rewrite He, Hw.
  destruct (passed v); cbn [negb andb List.length]; [lia |].
  destruct Hs as [-> | ->]; cbn [String.eqb Ascii.eqb Bool.eqb];
    cbn [List.length]; lia.
Qed.

(** X2: every one of the five checks is counted once, as passed, as an
    error or as a warning: [confidence * 5 + len(errors) + len(warnings)]
    is 5, so the confidence lies between 0 and 1. *)
Theorem confidence_accounts_for_every_check (self : JudgeAgent) (e : value)
  (r : ReviewResult) (self' : JudgeAgent) :
  review py_str fmt1 self e = (OK r, self') ->
  confidence r * 5 + INR (List.length (errors r))
    + INR (List.length (warnings r)) = 5 /\
  0 <= confidence r <= 1.
Proof.
  intros H. destruct (review_unfold _ _ _ _ _ _ H) as (vs & fb & Hrun & Hj).
  pose proof (run_checks_shapes _ _ _ _ _ Hrun) as Hshapes.
  assert (Hlen : List.length vs = 5%nat).
  { apply Forall2_length in Hshapes. cbn in Hshapes. congruence. }
  assert (Hsev : Forall (fun v => severity v = "error" \/ severity v = "warning")
                   vs).
  { eapply Forall_impl; [| exact (shapes_all _ _ Hshapes)].
    intros v (n & _ & Hs & _). exact Hs. }
  pose proof (three_way_count vs Hsev) as Hcount.
  unfold judge in Hj. inversion Hj; subst r self'; clear Hj.
  cbn [confidence errors warnings]. rewrite !length_map, Hlen.
  cbn [Nat.ltb Nat.leb].
  rewrite Hlen in Hcount.
  set (p := List.length (filter passed vs)) in *.
  set (a := List.length (filter (failed_with "error") vs)) in *.
  set (b := List.length (filter (failed_with "warning") vs)) in *.
  assert (HR : INR p + INR a + INR b = 5).
  { rewrite <- !plus_INR, Hcount. cbn. lra. }
  pose proof (pos_INR p). pose proof (pos_INR a). pose proof (pos_INR b).
  replace (INR 5) with 5 by (cbn; lra).
  split; [| split]; lra.
Qed.

Lemma add_feedback_keys (fb : dict) (key : string) (v : ValidationResult)
  (k : string) (c : value) :
  In (k, c) (add_feedback fb key v) ->
  In (k, c) fb \/ (k = key /\ passed v = false /\ correction v = Some c).
Proof.
  unfold add_feedback. destruct (correction v) as [c' |]; [| auto].
  destruct (passed v); cbn [negb andb]; [auto |].
  destruct (truthy c'); [| auto].
  intros Hin. apply in_app_or in Hin. destruct Hin as [Hin | [Heq | []]].
  - auto.
  - inversion Heq; subst. auto.
Qed.

(** X3: the feedback of a review holds nothing but the corrections of
    failed checks, under the keys of the first four checks; an approved
    review can only carry a taper correction, and a review whose checks all
    passed carries no feedback. *)
Theorem feedback_only_for_failed_checks (self : JudgeAgent) (e : value)
  (r : ReviewResult) (self' : JudgeAgent) :
  review py_str fmt1 self e = (OK r, self') ->
  exists w t h g d fb,
    run_checks py_str fmt1 e = OK ([w; t; h; g; d], fb) /\
    (forall k c, In (k, c) (feedback r) ->
       (k = "width_correction" /\ passed w = false /\ correction w = Some c) \/
       (k = "taper_correction" /\ passed t = false /\ correction t = Some c) \/
       (k = "hole_correction" /\ passed h = false /\ correction h = Some c) \/
       (k = "height_correction" /\ passed g = false /\ correction g = Some c)) /\
    (approved r = true ->
       forall k c, In (k, c) (feedback r) -> k = "taper_correction") /\
    (confidence r = 1 -> feedback r = []).
Proof.
  intros H. destruct (review_inv _ _ _ _ H)
    as (ss & hs & hp & tw & th & w & t & h & g & d & fb &
        Hrun & Hw & Ht & Hh & Hg & Hd & _ & Hfb & Hj).
  exists w, t, h, g, d, fb. split; [exact Hrun |].
  unfold judge in Hj. inversion Hj; subst r self'; clear Hj.
  cbn [feedback approved confidence filter List.length].
  assert (Hkeys : forall k c, In (k, c) fb ->
       (k = "width_correction" /\ passed w = false /\ correction w = Some c) \/
       (k = "taper_correction" /\ passed t = false /\ correction t = Some c) \/
       (k = "hole_correction" /\ passed h = false /\ correction h = Some c) \/
       (k = "height_correction" /\ passed g = false /\ correction g = Some c)).
  { intros k c Hin. rewrite Hfb in Hin.
    apply add_feedback_keys in Hin. destruct Hin as [Hin | Hin]; [| tauto].
    apply add_feedback_keys in Hin. destruct Hin as [Hin | Hin]; [| tauto].
    apply add_feedback_keys in Hin. destruct Hin as [Hin | Hin]; [| tauto].
    apply add_feedback_keys in Hin. destruct Hin as [[] | Hin]. tauto. }
  split; [exact Hkeys |]. split.
  - rewrite (failed_error_of_error w (width_sum_severity _ _ _ Hw)).
    rewrite (failed_error_of_warning t (taper_severity _ _ _ Ht)).
    rewrite (failed_error_of_error h (holes_severity _ _ _ _ Hh)).
    rewrite (failed_error_of_error g (heights_severity _ _ _ Hg)).
    rewrite (failed_error_of_warning d (edge_distances_severity _ _ _ _ Hd)).
    intros Ha k c Hin.
    destruct (Hkeys k c Hin)
      as [(_ & Hf & _) | [(Hk & _) | [(_ & Hf & _) | (_ & Hf & _)]]];
      try exact Hk; rewrite Hf in Ha; cbn in Ha;
      destruct (passed w), (passed h), (passed g); discriminate.
  - intros Hc.
    destruct fb as [| [k c] fb0]; [reflexivity |].
    assert (Hall : passed w = true /\ passed t = true /\ passed h = true /\
                   passed g = true).
    { revert Hc. destruct (passed w), (passed t), (passed h), (passed g),
        (passed d); cbn; intros Hc; try tauto; exfalso; lra. }
    destruct Hall as (Pw & Pt & Ph & Pg).
    destruct (Hkeys k c (or_introl eq_refl))
      as [(_ & Hf & _) | [(_ & Hf & _) | [(_ & Hf & _) | (_ & Hf & _)]]];
      congruence.
Qed.

Lemma holes_loop_no_sections (holes : list value) :
  forall i issues fixes r,
    holes_loop py_str i holes (VList []) issues fixes = OK r ->
    snd r = fixes.
Proof.
  induction holes as [| hole rest IH]; intros i issues fixes r H;
    cbn [holes_loop] in H.
  - inversion H; reflexivity.
  - inv_ok H. cbn [iter] in *.
    match goal with E : OK _ = OK _ |- _ => inversion E; subst; clear E end.
    cbn [hole_sections] in *.
    match goal with E : OK _ = OK _ |- _ => inversion E; subst; clear E end.
    cbn [fst snd] in H. apply IH in H. rewrite H. apply app_nil_r.
Qed.

Lemma no_sections_verdict (self : JudgeAgent) (d : dict)
  (r : ReviewResult) (self' : JudgeAgent) :
  field d "sections" (VList []) = VList [] ->
  review py_str fmt1 self (VDict d) = (OK r, self') ->
  approved r = false /\ feedback r = [] /\
  In "No sections defined" (errors r).
Proof.
  intros Hnone H. destruct (review_inv _ _ _ _ H)
    as (ss & hs & hp & tw & th & w & t & h & g & d0 & fb &
        Hrun & Hw & Ht & Hh & Hg & Hd & Hs & Hfb & Hj).
  cbn [get] in Hs. rewrite Hnone in Hs. inversion Hs; subst ss; clear Hs.
  cbn in Hw. inversion Hw; subst w; clear Hw.
  cbn in Ht. inversion Ht; subst t; clear Ht.
  cbn in Hg. inversion Hg; subst g; clear Hg.
  assert (Hhc : passed h = true \/ correction h = None).
  { unfold _validate_holes in Hh. inv_ok Hh; cbn; auto.
    match goal with
    | E : holes_loop _ _ _ _ _ _ = OK _ |- _ =>
        apply holes_loop_no_sections in E; rewrite E in *
    end.
    cbn; auto. }
  unfold judge in Hj. inversion Hj; subst r self'; clear Hj.
  cbn [approved feedback errors]. cbn.
  split; [reflexivity |]. split; [| left; reflexivity].
  rewrite Hfb. unfold add_feedback. cbn [correction passed ok_result].
  destruct Hhc as [Hp | Hc]; [| rewrite Hc; reflexivity].
  destruct (correction h); [| reflexivity]. rewrite Hp. reflexivity.
Qed.

(** X4: an extraction without sections is never approved, and the review
    leaves no feedback to act on: the only message about the sections is
    the error ["No sections defined"]. *)
Theorem no_sections_never_approved (self : JudgeAgent) (d : dict)
  (r : ReviewResult) (self' : JudgeAgent) :
  field d "sections" (VList []) = VList [] ->
  review py_str fmt1 self (VDict d) = (OK r, self') ->
  approved r = false /\ feedback r = [] /\
  In "No sections defined" (errors r).
Proof. exact (no_sections_verdict self d r self'). Qed.

End JudgeVerdict.

(** ** What the single checks decide *)

(** Takes apart every hypothesis that states a successful run. *)
Ltac inv_any :=
  repeat match goal with
  | H : bind ?m _ = OK _ |- _ =>
      let E := fresh "E" in
      destruct m eqn:E; cbn [bind] in H; [| discriminate H]
  | H : (if ?c then _ else _) = OK _ |- _ =>
      let E := fresh "E" in destruct c eqn:E
  | H : OK _ = OK _ |- _ => inversion H; subst; clear H
  | H : Raise _ = OK _ |- _ => discriminate H
  end.

Section JudgeChecks.

Import Judge Readings.

Variable py_str : value -> string.

Lemma heights_loop_spec (sections : list value) (hs : list R) :
  Forall2 (fun s h => number_at "height" 0 s = OK h) sections hs ->
  forall i issues acc,
    exists found vals,
      heights_loop py_str i sections issues acc
      = OK ((issues ++ found)%list, (acc ++ vals)%list) /\
      (found = [] <-> Forall (fun h => 0 < h <= 5000) hs) /\
      Forall2 (fun s x => get s "height" (VNum 0) = OK x) sections vals.
Proof.
  induction 1 as [| s h rest hs' Hh _ IH]; intros i issues acc;
    cbn [heights_loop].
  - exists [], []. rewrite !app_nil_r. repeat split; constructor.
  - unfold number_at in Hh. unfold num.
    destruct (get s "height" (VNum 0)) as [x |] eqn:Eg; cbn [bind] in Hh;
      [| discriminate].
    cbn [bind]. unfold le, gt, num2. rewrite Hh. cbn [bind as_num].
    destruct (Rleb h 0) eqn:Elow; cbn [bind].
    + match goal with
      | |- context [heights_loop _ ?j rest ?iss ?ac] =>
          destruct (IH j iss ac) as (found & vals & -> & _ & Hv)
      end.
      eexists (_ :: found), (x :: vals). rewrite <- !app_assoc. cbn [app].
      split; [reflexivity |]. split; [| constructor; assumption].
      split; [discriminate |]. intros Hall. inversion Hall; subst.
      apply Rleb_true in Elow. lra.
    + destruct (Rltb 5000 h) eqn:Ehigh.
      * match goal with
        | |- context [heights_loop _ ?j rest ?iss ?ac] =>
            destruct (IH j iss ac) as (found & vals & -> & _ & Hv)
        end.
        eexists (_ :: found), (x :: vals). rewrite <- !app_assoc. cbn [app].
        split; [reflexivity |]. split; [| constructor; assumption].
        split; [discriminate |]. intros Hall. inversion Hall; subst.
        apply Rltb_true in Ehigh. lra.
      * match goal with
        | |- context [heights_loop _ ?j rest ?iss ?ac] =>
            destruct (IH j iss ac) as (found & vals & -> & Hiff & Hv)
        end.
        exists found, (x :: vals). rewrite <- !app_assoc. cbn [app].
        split; [reflexivity |]. split; [| constructor; assumption].
        rewrite Hiff. apply Rleb_false in Elow. apply Rltb_false in Ehigh.
        split; intros Hall.
        -- constructor; [lra | assumption].
        -- inversion Hall; assumption.
Qed.


(** X6: the correction of a failed height check lists the heights the
    sections already have, one per section and in order: it proposes no
    change. *)
Theorem height_correction_echoes_heights (sections : list value)
  (hs : list R) (hp : value) (v : ValidationResult) :
  Forall2 (fun s h => number_at "height" 0 s = OK h) sections hs ->
  _validate_heights py_str (VList sections) hp = OK v ->
  passed v = false ->
  exists vals,
    correction v = Some (VDict [("section_heights", VList vals)]) /\
    Forall2 (fun s x => get s "height" (VNum 0) = OK x) sections vals.
Proof.
  intros Hhs H Hp. unfold _validate_heights in H. cbn [iter bind] in H.
  destruct (heights_loop_spec sections hs Hhs 0 [] [])
    as (found & vals & Hl & _ & Hv).
  rewrite Hl in H. cbn [bind fst snd app] in H.
  destruct (nonempty found); inversion H; subst v; clear H.
  - exists vals. split; [reflexivity | assumption].
  - discriminate.
Qed.

Lemma sum_widths_run (sections : list value) (widths : list R) :
  Forall2 (fun s w => width_of s = OK w) sections widths ->
  forall a, exists r,
    sum_widths (VNum a) sections = OK (VNum r) /\ r = a + Rsum widths.
Proof.
  induction 1 as [| s w rest ws Hw _ IH]; intros a; cbn [sum_widths].
  - exists a. split; [reflexivity |]. unfold Rsum. cbn. lra.
  - unfold width_of in Hw. unfold num.
    destruct (get s "width" (VNum 0)) as [x |]; cbn [bind] in Hw;
      [| discriminate].
    cbn [bind]. unfold add, num2. cbn [as_num bind]. rewrite Hw.
    cbn [bind]. destruct (IH (a + w)) as (r & -> & ->).
    eexists. split; [reflexivity |]. unfold Rsum. cbn [fold_right]. lra.
Qed.

Lemma width_sum_decides (tw : value) (sections : list value)
  (widths : list R) (total : R) :
  sections <> [] ->
  Forall2 (fun s w => width_of s = OK w) sections widths ->
  as_num tw = OK total ->
  exists v,
    _validate_width_sum py_str tw (VList sections) = OK v /\
    (passed v = true <-> Rabs (Rsum widths - total) <= 1 / 2).
Proof.
  intros Hne Hws Ht. unfold _validate_width_sum.
  assert (Htr : truthy (VList sections) = true).
  { destruct sections; [contradiction | reflexivity]. }
  rewrite Htr. cbn [negb iter bind]. unfold num.
  destruct (sum_widths_run sections widths Hws 0) as (r & -> & Hr).
  cbn [bind]. unfold sub, abs, le, num2. cbn [as_num bind]. rewrite Ht.
  cbn [bind as_num].
  replace (Rsum widths - total) with (r - total) by lra.
  destruct (Rleb (Rabs (r - total)) (1 / 2)) eqn:Ele.
  - eexists. split; [reflexivity |]. cbn [passed ok_result].
    apply Rleb_true in Ele. tauto.
  - cbn [len bind]. unfold div. cbn [as_num bind].
    assert (Hn : INR (List.length sections) <> 0).
    { apply not_0_INR. destruct sections; [contradiction | discriminate]. }
    rewrite <- INR_IZR_INZ. rewrite (proj2 (Reqb_false _ _) Hn).
    cbn [bind]. rewrite (corrected_widths_spec _ _ _ Hws). cbn [bind].
    eexists. split; [reflexivity |]. cbn [passed].
    apply Rleb_false in Ele. split; [discriminate | lra].
Qed.


Lemma width_sum_failure_inv (tw : value) (sections : list value)
  (v : ValidationResult) :
  sections <> [] ->
  _validate_width_sum py_str tw (VList sections) = OK v ->
  passed v = false ->
  exists total widths,
    as_num tw = OK total /\
    Forall2 (fun s w => width_of s = OK w) sections widths /\
    correction v =
      Some (VDict
              [("total_width", tw);
               ("section_widths",
                VList (map (fun w =>
                              VNum (w + (total - (0 + Rsum widths))
                                        / INR (List.length sections)))
                         widths));
               ("adjustment",
                VNum ((total - (0 + Rsum widths))
                      / INR (List.length sections)))]).
Proof.
  intros Hne H Hp. unfold _validate_width_sum in H.
  assert (Htr : truthy (VList sections) = true).
  { destruct sections; [contradiction | reflexivity]. }
  rewrite Htr in H. cbn [negb iter bind] in H. unfold num in H.
  destruct (sum_widths (VNum 0) sections) as [ssum |] eqn:Es;
    cbn [bind] in H; [| discriminate].
  destruct (sum_widths_spec _ _ _ Es) as (widths & Hall & ->).
  unfold sub, abs, le, num2 in H. cbn [as_num bind] in H.
  destruct (as_num tw) as [total |] eqn:Et; cbn [bind as_num] in H;
    [| discriminate].
  destruct (Rleb _ _) eqn:Ele in H.
  { inversion H; subst. discriminate. }
  cbn [len bind] in H. unfold div in H. cbn [as_num bind] in H.
  assert (Hn : INR (List.length sections) <> 0).
  { apply not_0_INR. destruct sections; [contradiction | discriminate]. }
  rewrite <- INR_IZR_INZ in H.
  rewrite (proj2 (Reqb_false _ _) Hn) in H. cbn [bind] in H.
  rewrite (corrected_widths_spec _ _ _ Hall) in H. cbn [bind] in H.
  inversion H; subst; clear H. cbn [correction].
  exists total, widths. repeat split; assumption.
Qed.

Lemma carried_widths (c : R) (fixed : list value) :
  forall widths,
    Forall2 (fun s w => get s "width" (VNum 0) = OK w) fixed
      (map (fun w => VNum (w + c)) widths) ->
    Forall2 (fun s w => width_of s = OK w) fixed
      (map (fun w => w + c) widths).
Proof.
  induction fixed as [| s rest IH]; intros widths H.
  - destruct widths; [constructor | inversion H].
  - destruct widths as [| w widths]; [inversion H |].
    cbn [map] in *. inversion H as [| ? ? ? ? Hx Hrest]; subst.
    constructor; [| now apply IH].
    unfold width_of. rewrite Hx. reflexivity.
Qed.

(** X8: the width correction repairs the mismatch in one step: any
    section list that carries the proposed widths passes the width check
    against the total width the correction names. *)
Theorem corrected_widths_pass (tw : value) (sections : list value)
  (v : ValidationResult) (tw' adj : value) (ws fixed : list value) :
  sections <> [] ->
  _validate_width_sum py_str tw (VList sections) = OK v ->
  passed v = false ->
  correction v =
    Some (VDict [("total_width", tw'); ("section_widths", VList ws);
                 ("adjustment", adj)]) ->
  Forall2 (fun s w => get s "width" (VNum 0) = OK w) fixed ws ->
  exists v',
    _validate_width_sum py_str tw' (VList fixed) = OK v' /\
    passed v' = true.
Proof.
  intros Hne H Hp Hc Hfixed.
  destruct (width_sum_failure_inv _ _ _ Hne H Hp)
    as (total & widths & Ht & Hws & Hc').
  rewrite Hc' in Hc. inversion Hc; subst tw' ws adj; clear Hc.
  set (share := (total - (0 + Rsum widths)) / INR (List.length sections))
    in *.
  assert (Hlen : List.length widths = List.length sections).
  { symmetry. eapply Forall2_length; eassumption. }
  assert (Hfw : Forall2 (fun s w => width_of s = OK w) fixed
                  (map (fun w => w + share) widths)).
  { apply carried_widths. exact Hfixed. }
  assert (Hfne : fixed <> []).
  { intros ->. destruct widths; [| inversion Hfw]. cbn in Hlen.
    destruct sections; [contradiction | discriminate]. }
  destruct (width_sum_decides tw fixed _ total Hfne Hfw Ht) as (v' & Hv' & Hiff).
  exists v'. split; [exact Hv' |]. apply Hiff.
  rewrite Rsum_shift, Hlen.
  assert (Hn : INR (List.length sections) <> 0).
  { apply not_0_INR. destruct sections; [contradiction | discriminate]. }
  assert (Hzero : Rsum widths + INR (List.length sections) * share - total = 0).
  { unfold share. field. exact Hn. }
  rewrite Hzero, Rabs_R0. lra.
Qed.

Lemma hole_sections_fixes (sections : list value) (i : Z)
  (x y radius : value) :
  forall r,
    hole_sections py_str i x y radius sections = OK r ->
    Forall (fun f => exists rest, f = VDict (("index", VNum (IZR i)) :: rest))
      (snd (snd r)).
Proof.
  induction sections as [| s rest IH]; intros r H; cbn [hole_sections] in H.
  - inversion H; subst. constructor.
  - unfold num in H. inv_any; cbn [fst snd]; eauto;
      repeat (apply Forall_app; split); repeat constructor; eauto.
Qed.

Lemma holes_loop_fixes (sections : value) (holes : list value) :
  forall i issues fixes r,
    (0 <= i)%Z ->
    holes_loop py_str i holes sections issues fixes = OK r ->
    Forall (fun f => exists j rest,
              f = VDict (("index", VNum (IZR j)) :: rest) /\
              (0 <= j < i)%Z) fixes ->
    Forall (fun f => exists j rest,
              f = VDict (("index", VNum (IZR j)) :: rest) /\
              (0 <= j < i + Z.of_nat (List.length holes))%Z) (snd r).
Proof.
  induction holes as [| hole rest IH]; intros i issues fixes r Hi H Hf;
    cbn [holes_loop] in H.
  - inversion H; subst. cbn [snd List.length].
    eapply Forall_impl; [| exact Hf].
    intros f (j & rest' & -> & Hj). exists j, rest'. split; [reflexivity | lia].
  - inv_any.
    match goal with
    | E : hole_sections _ _ _ _ _ _ = OK _ |- _ =>
        apply hole_sections_fixes in E; rename E into Hnew
    end.
    match goal with
    | E : holes_loop _ _ _ _ _ _ = OK _ |- _ => apply IH in E; [| lia |]
    end.
    + eapply Forall_impl; [| eassumption].
      intros f (j & rest' & -> & Hj). exists j, rest'.
      split; [reflexivity |]. cbn [List.length]. lia.
    + apply Forall_app. split.
      * eapply Forall_impl; [| exact Hf].
        intros f (j & rest' & -> & Hj). exists j, rest'.
        split; [reflexivity | lia].
      * eapply Forall_impl; [| exact Hnew].
        intros f (rest' & ->). exists i, rest'. split; [reflexivity | lia].
Qed.

(** X9: every fix a failed hole check proposes carries the index of a hole
    of the list it checked, so a fix never points outside the holes. *)
Theorem hole_fixes_index_existing_holes (holes : list value)
  (sections thickness : value) (v : ValidationResult) (c : value) :
  _validate_holes py_str (VList holes) sections thickness = OK v ->
  correction v = Some c ->
  passed v = false /\
  exists fixes,
    c = VDict [("fixes", VList fixes)] /\ fixes <> [] /\
    Forall (fun f => exists j rest,
              f = VDict (("index", VNum (IZR j)) :: rest) /\
              (0 <= j < Z.of_nat (List.length holes))%Z) fixes.
Proof.
  intros H Hc. unfold _validate_holes in H.
  destruct (negb (truthy (VList holes))); [inversion H; subst; discriminate |].
  cbn [iter bind] in H.
  destruct (holes_loop py_str 0 holes sections [] []) as [r |] eqn:El;
    cbn [bind] in H; [| discriminate].
  apply holes_loop_fixes in El; [| lia | constructor].
  destruct (nonempty (fst r)); inversion H; subst v; clear H;
    cbn [correction passed ok_result] in *; [| discriminate].
  destruct (snd r) as [| f fs] eqn:Er; cbn [nonempty] in Hc; [discriminate |].
  inversion Hc; subst c. split; [reflexivity |].
  exists (f :: fs). split; [reflexivity |]. split; [discriminate |].
  exact El.
Qed.

End JudgeChecks.

(** ** The agent's bookkeeping *)

Section JudgeBookkeeping.

Import Judge JudgeRun.

Variable py_str : value -> string.
Variable fmt1 : value -> string.

Lemma review_step (self : JudgeAgent) (e : value) :
  let self' := snd (review py_str fmt1 self e) in
  iteration self' = (iteration self + 1)%Z /\
  max_iterations self' = max_iterations self /\
  exists new,
    review_history self' = (review_history self ++ new)%list /\
    List.length new = (if returns py_str fmt1 e then 1 else 0)%nat.
Proof.
  unfold review, returns.
  destruct (run_checks py_str fmt1 e) as [[vs fb] | x]; cbn.
  - repeat split. eexists. split; reflexivity.
  - repeat split. exists []. rewrite app_nil_r. split; reflexivity.
Qed.

Lemma review_all_counters (self : JudgeAgent) (es : list value) :
  iteration (review_all py_str fmt1 self es)
    = (iteration self + Z.of_nat (List.length es))%Z /\
  max_iterations (review_all py_str fmt1 self es) = max_iterations self.
Proof.
  revert self. induction es as [| e rest IH]; intros self.
  - cbn. split; [lia | reflexivity].
  - cbn [review_all List.length].
    destruct (review_step self e) as (Hi & Hm & _).
    destruct (IH (snd (review py_str fmt1 self e))) as (Hi' & Hm').
    cbn zeta in *. rewrite Hi', Hm', Hi, Hm. split; [lia | reflexivity].
Qed.

(** X10: the agent counts every review it starts and stores one judgment
    for every review that returns: after any sequence of reviews,
    [iteration] has grown by their number, [review_history] by the number
    of those that did not raise, and [max_iterations] is unchanged. *)
Theorem review_bookkeeping (self : JudgeAgent) (es : list value) :
  let self' := review_all py_str fmt1 self es in
  iteration self' = (iteration self + Z.of_nat (List.length es))%Z /\
  max_iterations self' = max_iterations self /\
  exists new,
    review_history self' = (review_history self ++ new)%list /\
    List.length new = List.length (filter (returns py_str fmt1) es).
Proof.
  revert self. induction es as [| e rest IH]; intros self; cbn zeta.
  - cbn. split; [lia |]. split; [reflexivity |].
    exists []. rewrite app_nil_r. split; reflexivity.
  - cbn [review_all List.length filter].
    destruct (review_step self e) as (Hi & Hm & new1 & Hh & Hl).
    destruct (IH (snd (review py_str fmt1 self e)))
      as (Hi' & Hm' & new2 & Hh' & Hl').
    cbn zeta in *. rewrite Hi', Hm', Hh', Hi, Hm, Hh.
    split; [lia |]. split; [reflexivity |].
    exists (new1 ++ new2)%list. rewrite app_assoc. split; [reflexivity |].
    rewrite length_app, Hl, Hl'.
    destruct (returns py_str fmt1 e); reflexivity.
Qed.

(** X11: a fresh agent allows four corrections: the review number [n + 1]
    reports [iteration = n + 1], and [can_continue] exactly when
    [n + 1 < 5]. *)
Theorem can_continue_until_fifth_review (es : list value) (e : value)
  (r : ReviewResult) (self' : JudgeAgent) :
  review py_str fmt1 (review_all py_str fmt1 init es) e = (OK r, self') ->
  r_iteration r = (Z.of_nat (List.length es) + 1)%Z /\
  (can_continue r = true <-> (List.length es < 4)%nat).
Proof.
  intros H.
  destruct (review_all_counters init es) as (Hi & Hm).
  destruct (review_unfold _ _ _ _ _ _ H) as (vs & fb & _ & Hj).
  unfold judge in Hj. inversion Hj; subst r self'; clear Hj.
  cbn [r_iteration can_continue iteration max_iterations].
  rewrite Hi, Hm. cbn [iteration max_iterations init].
  split; [lia |]. rewrite Z.ltb_lt. lia.
Qed.

Lemma nonempty_snoc {A : Type} (l : list A) (x : A) :
  nonempty (l ++ [x])%list = true.
Proof. destruct l; reflexivity. Qed.

(** X12: after a review that returns, [get_summary] counts the stored
    judgments, reports the verdict of that review as [final_approved], and
    gives an approval rate between 0 and 1. *)
Theorem summary_after_review (self : JudgeAgent) (e : value)
  (r : ReviewResult) (self' : JudgeAgent) :
  review py_str fmt1 self e = (OK r, self') ->
  exists rate,
    get_summary self' =
      [("total_reviews",
        VNum (INR (List.length (review_history self) + 1)));
       ("approval_rate", VNum rate);
       ("iterations", VNum (IZR (iteration self + 1)));
       ("final_approved", VBool (approved r))] /\
    0 <= rate <= 1.
Proof.
  intros H.
  destruct (review_unfold _ _ _ _ _ _ H) as (vs & fb & _ & Hj).
  unfold judge in Hj. inversion Hj; subst r self'; clear Hj.
  unfold get_summary.
  cbn [review_history iteration approved].
  rewrite nonempty_snoc. cbn [negb].
  rewrite map_app. cbn [map]. rewrite last_last, length_app.
  cbn [List.length j_approved].
  eexists. split; [reflexivity |].
  match goal with
  | |- context [filter j_approved ?l] => set (h := l)
  end.
  assert (Hle : (List.length (filter j_approved h)
                 <= List.length (review_history self) + 1)%nat).
  { replace (List.length (review_history self) + 1)%nat with (List.length h)
      by (unfold h; rewrite length_app; reflexivity).
    apply filter_length_le. }
  assert (Hpos : 0 < INR (List.length (review_history self) + 1)).
  { apply lt_0_INR. lia. }
  apply le_INR in Hle. pose proof (pos_INR (List.length (filter j_approved h))).
  split.
  - apply Rmult_le_pos; [assumption |]. left. now apply Rinv_0_lt_compat.
  - apply (Rmult_le_reg_r (INR (List.length (review_history self) + 1)));
      [assumption |].
    unfold Rdiv. rewrite Rmult_assoc, Rinv_l by lra. lra.
Qed.

End JudgeBookkeeping.

(** ** The validation loop *)

Section ValidationLoop.

Import Judge JudgeRun.

Variable py_str : value -> string.
Variable fmt1 : value -> string.
Variable fmt_pct : R -> string.
Variable fmt_list : list string -> string.
Variable Creator : Type.
Variable get_current_extraction : Creator -> result value * Creator.
Variable apply_feedback : Creator -> dict -> result value * Creator.

Lemma verdict_independent_of_agent (self : JudgeAgent) (e : value)
  (r : ReviewResult) (self' : JudgeAgent) :
  review py_str fmt1 self e = (OK r, self') ->
  forall other, exists r' other',
    review py_str fmt1 other e = (OK r', other') /\
    approved r' = approved r /\ feedback r' = feedback r.
Proof.
  intros H other.
  destruct (review_unfold _ _ _ _ _ _ H) as (vs & fb & Hrun & Hj).
  unfold judge in Hj. inversion Hj; subst r self'; clear Hj.
  unfold review. rewrite Hrun. unfold judge.
  do 2 eexists. split; [reflexivity |]. split; reflexivity.
Qed.

Lemma finish_false (st : LoopState Creator) (b : bool) (e : value)
  (st' : LoopState Creator) :
  (JudgeRun.finish Creator get_current_extraction st) = (OK (b, e), st') -> b = false.
Proof.
  unfold JudgeRun.finish.
  destruct (get_current_extraction (creator _ st)) as [[x | x] c];
    intros H; inversion H; reflexivity.
Qed.

Lemma loop_true_approved (n : nat) :
  forall (i : Z) (st st' : LoopState Creator) (e : value),
    (JudgeRun.loop py_str fmt1 fmt_pct fmt_list Creator get_current_extraction
       apply_feedback n i st)
    = (OK (true, e), st') ->
    exists self r self',
      review py_str fmt1 self e = (OK r, self') /\ approved r = true.
Proof.
  induction n as [| n IH]; intros i st st' e H; cbn [JudgeRun.loop] in H.
  - apply finish_false in H. discriminate.
  - destruct (get_current_extraction (creator _ st)) as [[x | x] c];
      [| discriminate].
    destruct (review py_str fmt1 (judge _ st) x) as [[r | ex] j] eqn:Er;
      [| discriminate].
    destruct (approved r) eqn:Ea.
    + inversion H; subst. eauto.
    + destruct (nonempty (feedback r)).
      * destruct (apply_feedback c (feedback r)) as [[m | ex] c'];
          [| discriminate].
        destruct (truthy m).
        -- eapply IH; eassumption.
        -- apply finish_false in H. discriminate.
      * apply finish_false in H. discriminate.
Qed.

(** X13: when [run_validation_loop] returns [True], the extraction it
    hands back is one the Judge approves, whatever the state of the agent
    that reviews it. *)
Theorem loop_returns_approved_extraction (c : Creator) (j : JudgeAgent)
  (max_iterations : Z) (out : list string) (e : value)
  (st' : LoopState Creator) :
  (JudgeRun.run_validation_loop py_str fmt1 fmt_pct fmt_list Creator
     get_current_extraction apply_feedback c j max_iterations out)
  = (OK (true, e), st') ->
  forall self, exists r self',
    review py_str fmt1 self e = (OK r, self') /\ approved r = true.
Proof.
  unfold JudgeRun.run_validation_loop. intros H self.
  destruct (loop_true_approved _ _ _ _ _ H) as (s0 & r0 & s0' & Hr & Ha).
  destruct (verdict_independent_of_agent _ _ _ _ Hr self)
    as (r & self' & Hr' & Ha' & _).
  exists r, self'. split; [exact Hr' | congruence].
Qed.

Lemma finish_keeps (st : LoopState Creator) :
  judge _ (snd (JudgeRun.finish Creator get_current_extraction st)) = judge _ st /\
  console _ (snd (JudgeRun.finish Creator get_current_extraction st)) = console _ st.
Proof.
  unfold JudgeRun.finish.
  destruct (get_current_extraction (creator _ st)) as [[x | x] c]; cbn; auto.
Qed.

Lemma loop_bounds (n : nat) :
  forall (i : Z) (st : LoopState Creator),
    let st' := snd (JudgeRun.loop py_str fmt1 fmt_pct fmt_list Creator get_current_extraction
       apply_feedback n i st) in
    (iteration (judge _ st) <= iteration (judge _ st')
     <= iteration (judge _ st) + Z.of_nat n)%Z /\
    max_iterations (judge _ st') = max_iterations (judge _ st) /\
    exists printed, console _ st' = (console _ st ++ printed)%list.
Proof.
  induction n as [| n IH]; intros i st; cbn zeta; cbn [JudgeRun.loop].
  - destruct (finish_keeps st) as (-> & ->).
    split; [lia |]. split; [reflexivity |]. exists []. now rewrite app_nil_r.
  - destruct (get_current_extraction (creator _ st)) as [[x | x] c];
      cbn [snd judge console].
    2:{ split; [lia |]. split; [reflexivity |]. exists [].
        now rewrite app_nil_r. }
    pose proof (review_step py_str fmt1 (judge _ st) x) as Hstep.
    cbn zeta in Hstep. destruct Hstep as (Hi & Hm & _).
    destruct (review py_str fmt1 (judge _ st) x) as [[r | ex] j];
      cbn [snd] in Hi, Hm; cbn [snd judge console].
    2:{ split; [lia |]. split; [assumption |]. exists [].
        now rewrite app_nil_r. }
    destruct (approved r); cbn [snd judge console].
    { split; [lia |]. split; [assumption |]. eexists.
      rewrite <- app_assoc. reflexivity. }
    destruct (nonempty (feedback r)).
    + destruct (apply_feedback c (feedback r)) as [[m | ex] c'];
        cbn [snd judge console].
      2:{ split; [lia |]. split; [assumption |]. eexists. reflexivity. }
      destruct (truthy m).
      * match goal with
        | |- context [JudgeRun.loop _ _ _ _ _ _ _ n ?k ?s] =>
            destruct (IH k s) as (Hb & Hmx & printed & Hp)
        end.
        cbn zeta in *. cbn [judge console] in *.
        rewrite Hmx, Hp. split; [lia |]. split; [assumption |].
        eexists. rewrite <- !app_assoc. reflexivity.
      * match goal with
        | |- context [JudgeRun.finish _ _ ?s] =>
            destruct (finish_keeps s) as (-> & ->)
        end.
        cbn [judge console]. split; [lia |]. split; [assumption |].
        eexists. rewrite <- app_assoc. reflexivity.
    + match goal with
      | |- context [JudgeRun.finish _ _ ?s] =>
          destruct (finish_keeps s) as (-> & ->)
      end.
      cbn [judge console]. split; [lia |]. split; [assumption |].
      eexists. rewrite <- app_assoc. reflexivity.
Qed.

(** X14: whatever the creator does and however the loop ends, the Judge
    is asked for at most [max_iterations] reviews (none when the bound is
    not positive), its own [max_iterations] is untouched, and the console
    only grows. *)
Theorem loop_reviews_at_most_max_iterations (c : Creator) (j : JudgeAgent)
  (max_iterations : Z) (out : list string) :
  let st' :=
    snd (JudgeRun.run_validation_loop py_str fmt1 fmt_pct fmt_list Creator
     get_current_extraction apply_feedback c j max_iterations out) in
  (iteration j <= iteration (judge _ st')
   <= iteration j + Z.max 0 max_iterations)%Z /\
  Judge.max_iterations (judge _ st') = Judge.max_iterations j /\
  exists printed, console _ st' = (out ++ printed)%list.
Proof.
  unfold JudgeRun.run_validation_loop.
  destruct (loop_bounds (Z.to_nat max_iterations) 0
              (mkLoopState Creator c j out)) as (Hb & Hm & Hp).
  cbn zeta in *. cbn [judge console] in *.
  split; [lia |]. split; assumption.
Qed.

(** X15: the loop cannot repair a missing section list: when the creator
    keeps offering an extraction without sections, the loop reviews it
    once, finds no feedback to apply and returns [False] with that
    extraction. *)
Theorem loop_stops_without_sections (c : Creator) (j : JudgeAgent)
  (max_iterations : Z) (out : list string) (d : dict) :
  (0 < max_iterations)%Z ->
  get_current_extraction c = (OK (VDict d), c) ->
  field d "sections" (VList []) = VList [] ->
  returns py_str fmt1 (VDict d) = true ->
  exists st' printed,
    (JudgeRun.run_validation_loop py_str fmt1 fmt_pct fmt_list Creator
       get_current_extraction apply_feedback c j max_iterations out)
    = (OK (false, VDict d), st') /\
    iteration (judge _ st') = (iteration j + 1)%Z /\
    console _ st' = (out ++ printed ++ ["  No feedback provided"])%list.
Proof.
  intros Hmax Hget Hnone Hret.
  unfold JudgeRun.run_validation_loop.
  destruct (Z.to_nat max_iterations) as [| n] eqn:En; [lia |].
  cbn [JudgeRun.loop creator judge console]. rewrite Hget.
  destruct (review py_str fmt1 j (VDict d)) as [[r | ex] j'] eqn:Er.
  2:{ unfold review, returns in *.
      destruct (run_checks py_str fmt1 (VDict d)) as [[vs fb] | x];
        [| discriminate].
      destruct (Judge.judge _ vs fb). discriminate. }
  destruct (no_sections_verdict py_str fmt1 _ _ _ _ Hnone Er)
    as (Ha & Hf & _).
  pose proof (review_step py_str fmt1 j (VDict d)) as Hstep.
  cbn zeta in Hstep. rewrite Er in Hstep. cbn [snd] in Hstep.
  destruct Hstep as (Hi & _).
  rewrite Ha, Hf. cbn [nonempty]. unfold JudgeRun.finish.
  cbn [creator judge console]. rewrite Hget.
  do 2 eexists. split; [reflexivity |]. cbn [judge console].
  split; [exact Hi |]. rewrite <- app_assoc. reflexivity.
Qed.

End ValidationLoop.

(** * Further properties of the precision calculator *)

(** Turns the boolean comparisons among the hypotheses into inequalities. *)
Ltac reflect_cmp :=
  repeat match goal with
  | H : ?b = ?b |- _ => clear H
  | H : true = _ |- _ => symmetry in H
  | H : false = _ |- _ => symmetry in H
  | H : Rleb _ _ = true |- _ => apply Rleb_true in H
  | H : Rleb _ _ = false |- _ => apply Rleb_false in H
  | H : Rltb _ _ = true |- _ => apply Rltb_true in H
  | H : Rltb _ _ = false |- _ => apply Rltb_false in H
  | H : Reqb _ _ = false |- _ => apply Reqb_false in H
  end.

(** Like [inv_ok], but keeps the final equation instead of rewriting
    with it. *)
Ltac inj_ok H :=
  repeat match type of H with
  | bind ?m _ = OK _ =>
      let E := fresh "E" in
      destruct m eqn:E; cbn [bind] in H; [| discriminate H]
  | (if ?c then _ else _) = OK _ =>
      let E := fresh "E" in destruct c eqn:E
  | OK _ = OK _ => injection H as H
  | Raise _ = OK _ => discriminate H
  end.

Section SectionPositions.

Import Precision Readings.

Variable py_str : value -> string.

Lemma sum_widths_same (sections : list value) :
  forall acc, Precision.sum_widths acc sections = Judge.sum_widths acc sections.
Proof.
  induction sections as [| s rest IH]; intros acc; cbn; [reflexivity |].
  unfold Judge.num. destruct (get s "width" (VNum 0)); cbn [bind];
    [| reflexivity].
  destruct (add acc a); cbn [bind]; [apply IH | reflexivity].
Qed.

(** X16: what passes the calculator's section check passes the Judge's
    width check: when [calculate_section_positions] returns [True] on a
    non-empty section list, the widths sum to within 0.1 of the total width
    and [_validate_width_sum] passes on the same data. *)
Theorem valid_sections_pass_width_check (w : World) (d dims : dict)
  (sections : list value) :
  extraction w = VDict d ->
  field d "dimensions" (VDict []) = VDict dims ->
  field d "sections" (VList []) = VList sections ->
  sections <> [] ->
  fst (calculate_section_positions w) = OK true ->
  exists widths total v,
    Forall2 (fun s x => Judge.width_of s = OK x) sections widths /\
    as_num (field dims "width" (VNum 0)) = OK total /\
    Rabs (Rsum widths - total) <= 1 / 10 /\
    Judge._validate_width_sum py_str (field dims "width" (VNum 0))
      (VList sections) = OK v /\
    Judge.passed v = true.
Proof.
  intros He Hd Hs Hne H.
  unfold calculate_section_positions, bindM, extraction_get, lift in H.
  rewrite He in H. cbn [get fst snd] in H. rewrite Hd, Hs in H.
  cbn [get bind fst] in H.
  assert (Htr : truthy (VList sections) = true).
  { destruct sections; [contradiction | reflexivity]. }
  rewrite Htr in H. cbn [negb iter bind] in H.
  rewrite sum_widths_same in H.
  destruct (Judge.sum_widths (VNum 0) sections) as [ssum |] eqn:Es;
    cbn [bind] in H; [| discriminate].
  destruct (sum_widths_spec _ _ _ Es) as (widths & Hall & ->).
  unfold sub, abs, le, gt, num2 in H. cbn [as_num bind] in H.
  destruct (as_num (field dims "width" (VNum 0))) as [total |] eqn:Et;
    cbn [bind as_num] in H; [| discriminate].
  inj_ok H. apply andb_true_iff in H. destruct H as (Ew & _).
  apply Rleb_true in Ew.
  assert (Hclose : Rabs (Rsum widths - total) <= 1 / 10).
  { replace (Rsum widths - total) with (0 + Rsum widths - total) by lra.
    exact Ew. }
  destruct (width_sum_decides py_str _ _ _ _ Hne Hall Et) as (v & Hv & Hiff).
  exists widths, total, v. repeat split; try assumption.
  apply Hiff. lra.
Qed.

(** X17: the two validators disagree on a panel without sections: the
    calculator accepts it as a single section exactly when its width and
    height are positive, while the Judge never approves it. *)
Theorem sectionless_panel_splits_validators (fmt1 : value -> string)
  (w : World) (d dims : dict) (W H : R) :
  extraction w = VDict d ->
  field d "dimensions" (VDict []) = VDict dims ->
  field d "sections" (VList []) = VList [] ->
  as_num (field dims "width" (VNum 0)) = OK W ->
  as_num (field dims "height" (VNum 0)) = OK H ->
  (fst (calculate_section_positions w) = OK true <-> 0 < W /\ 0 < H) /\
  (forall self r self',
     Judge.review py_str fmt1 self (VDict d) = (OK r, self') ->
     Judge.approved r = false).
Proof.
  intros He Hd Hs HW HH. split.
  - unfold calculate_section_positions, bindM, extraction_get, lift.
    rewrite He. cbn [get fst snd]. rewrite Hd, Hs. cbn [get bind fst].
    cbn [truthy negb]. unfold gt, num2. rewrite HW, HH. cbn [bind as_num].
    destruct (Rltb 0 W) eqn:EW; destruct (Rltb 0 H) eqn:EH; reflect_cmp;
      split; intros Hx; try reflexivity; try discriminate;
      try (split; assumption); destruct Hx; exfalso; lra.
  - intros self r self' Hr.
    now destruct (no_sections_verdict py_str fmt1 _ _ _ _ Hs Hr).
Qed.

End SectionPositions.

(** ** Hole positions *)




Section HolePositions.

Import Precision Readings.



End HolePositions.

(** ** Hole spacing *)

Section HoleSpacing.

Import Precision Readings.






End HoleSpacing.

(** ** Geometric feasibility *)


Section Feasibility.

Import Precision Readings.






End Feasibility.

(** * What can go wrong *)

Section TypingOnly.

Import Readings.













End TypingOnly.


Section CalculatorsRaise.

Import Precision Readings.













End CalculatorsRaise.

Section JudgeRaise.

Import Judge Readings.

Variable py_str : value -> string.
Variable fmt1 : value -> string.














End JudgeRaise.

(** * The validation command *)

Section CommandFacts.

Import Precision ValidateCommand.

Variable py_str : value -> string.

Ltac console_free :=
  unfold bindM, extraction_get, lift; cbn [extraction];
  repeat match goal with
  | |- context [match get ?e ?k ?d with _ => _ end] =>
      destruct (get e k d)
  end; reflexivity.

(** A calculator's answer is a function of the extraction alone, and the
    console it is run with comes back as it was. *)
Lemma section_positions_console (e : value) (o : list string) :
  calculate_section_positions (mkWorld e o) =
  (fst (calculate_section_positions (mkWorld e [])), mkWorld e o).
Proof. unfold calculate_section_positions. console_free. Qed.

Lemma hole_positions_console (e : value) (o : list string) :
  calculate_hole_positions (mkWorld e o) =
  (fst (calculate_hole_positions (mkWorld e [])), mkWorld e o).
Proof. unfold calculate_hole_positions. console_free. Qed.

Lemma geometric_feasibility_console (e : value) (o : list string) :
  calculate_geometric_feasibility (mkWorld e o) =
  (fst (calculate_geometric_feasibility (mkWorld e [])), mkWorld e o).
Proof. unfold calculate_geometric_feasibility. console_free. Qed.

Lemma announce_appends (json_path : string) (verbose : bool) (e : value)
  (out : list string) :
  exists lines,
    snd (announce py_str json_path verbose e out) = (out ++ lines)%list.
Proof.
  unfold announce. destruct verbose.
  - destruct (get e "dimensions" (VDict [])); cbn [snd].
    + rewrite <- app_assoc. eauto.
    + eauto.
  - exists []. cbn [snd]. now rewrite app_nil_r.
Qed.

(** X25: when the validation command returns, its exit status is 0 or 1,
    it is 0 exactly when the three calculators all answer [True] on the
    loaded extraction, the last line printed is the matching verdict, and
    what was on the console before is still there, in front of the
    report. *)
Theorem validation_status_is_the_conjunction (json_path : string)
  (verbose : bool) (data e : value) (out out' : list string) (c : Z) :
  get data "extraction" data = OK e ->
  validate_extraction py_str json_path verbose (Parsed data) out
    = (Returned c, out') ->
  (c = 0 \/ c = 1)%Z /\
  (c = 0%Z <->
     fst (calculate_section_positions (mkWorld e [])) = OK true /\
     fst (calculate_hole_positions (mkWorld e [])) = OK true /\
     fst (calculate_geometric_feasibility (mkWorld e [])) = OK true) /\
  last out' EmptyString
    = ("Overall: " ++ (if (c =? 0)%Z then "PASSED" else "FAILED"))%string /\
  exists lines, out' = (out ++ lines)%list.
Proof.
  intros He Hv. unfold validate_extraction, load_extraction in Hv.
  rewrite He in Hv.
  destruct (announce_appends json_path verbose e out) as [l0 Hl0].
  destruct (announce py_str json_path verbose e out) as [[[] | x] out2];
    [| discriminate].
  cbn [snd] in Hl0. subst out2.
  rewrite section_positions_console in Hv.
  destruct (fst (calculate_section_positions (mkWorld e []))) as [b1 | x];
    [| discriminate].
  rewrite hole_positions_console in Hv.
  destruct (fst (calculate_hole_positions (mkWorld e []))) as [b2 | x];
    [| discriminate].
  rewrite geometric_feasibility_console in Hv.
  destruct (fst (calculate_geometric_feasibility (mkWorld e []))) as [b3 | x];
    [| discriminate].
  cbn [stdout report_loop fst snd] in Hv.
  injection Hv as Hc Ho. subst out'.
  assert (Hlast : forall (l : list string) (a b : string),
             last (l ++ [a; b])%list EmptyString = b).
  { intros l a b. change [a; b] with ([a] ++ [b])%list.
    rewrite app_assoc. apply last_last. }
  destruct b1, b2, b3; cbn [negb] in *; subst c; cbn [Z.eqb];
    (split; [auto |]);
    (split; [split; [intros Hc; try discriminate Hc; auto
                    | intros (? & ? & ?); try reflexivity; congruence] |]);
    (split; [apply Hlast |]);
    repeat rewrite <- app_assoc; eauto.
Qed.

Lemma field_absent (d : dict) (k : string) (default : value) :
  ~ In k (map fst d) -> field d k default = default.
Proof.
  unfold field. induction d as [| [k' v] d IH]; cbn; [reflexivity |].
  intros Hn. destruct (String.eqb_spec k k') as [-> | _].
  - exfalso. apply Hn. now left.
  - apply IH. intros Hin. apply Hn. now right.
Qed.

(** X26: a document that wraps the extraction under the key
    ["extraction"] and the bare extraction are validated alike: same
    console output, same exit status. *)
Theorem wrapped_document_validates_alike (json_path : string)
  (verbose : bool) (d : dict) (out : list string) :
  ~ In "extraction" (map fst d) ->
  validate_extraction py_str json_path verbose
    (Parsed (VDict [("extraction", VDict d)])) out
  = validate_extraction py_str json_path verbose (Parsed (VDict d)) out.
Proof.
  intros Hd. unfold validate_extraction, load_extraction.
  cbn [get]. rewrite (field_absent d _ _ Hd). reflexivity.
Qed.

End CommandFacts.

Section JudgeReads.

Import Judge.

Variable py_str : value -> string.
Variable fmt1 : value -> string.

(** X27: [review] looks at three entries of the extraction only:
    [dimensions], [sections] and [holes].  Two extractions that agree on
    them get the same result and leave the agent in the same state,
    whatever else they hold; [height_profile] in particular is read and
    then ignored by every check. *)
Theorem review_reads_three_entries (self : JudgeAgent) (d1 d2 : dict) :
  (forall dv, field d1 "dimensions" dv = field d2 "dimensions" dv) ->
  (forall dv, field d1 "sections" dv = field d2 "sections" dv) ->
  (forall dv, field d1 "holes" dv = field d2 "holes" dv) ->
  review py_str fmt1 self (VDict d1) = review py_str fmt1 self (VDict d2).
Proof.
  intros Hd Hs Hh. unfold review, run_checks. cbn [get bind].
  rewrite Hd, Hs, Hh. reflexivity.
Qed.

End JudgeReads.

(** * The properties on sample inputs *)

Section VerdictSamples.

Import Judge JudgeRun Samples MoreSamples.

Ltac run_review :=
  unfold review, run_checks, door_panel; eval_py; reflexivity.

Lemma approval_is_decided_by_three_checks_witness :
  exists r self',
    review render render init door_panel = (OK r, self') /\
    exists w t h g d fb,
      run_checks render render door_panel = OK ([w; t; h; g; d], fb) /\
      (approved r = true <->
         passed w = true /\ passed h = true /\ passed g = true).
Proof.
  eexists; eexists. split; [run_review |].
  eapply (approval_is_decided_by_three_checks render render init door_panel).
  run_review.
Defined.

Lemma confidence_accounts_for_every_check_witness :
  exists r self',
    review render render init door_panel = (OK r, self') /\
    confidence r * 5 + INR (List.length (errors r))
      + INR (List.length (warnings r)) = 5 /\
    0 <= confidence r <= 1.
Proof.
  eexists; eexists. split; [run_review |].
  eapply (confidence_accounts_for_every_check render render init door_panel).
  run_review.
Defined.

Lemma feedback_only_for_failed_checks_witness :
  exists r self',
    review render render init door_panel = (OK r, self') /\
    exists w t h g d fb,
      run_checks render render door_panel = OK ([w; t; h; g; d], fb) /\
      (forall k c, In (k, c) (feedback r) ->
         (k = "width_correction" /\ passed w = false /\ correction w = Some c) \/
         (k = "taper_correction" /\ passed t = false /\ correction t = Some c) \/
         (k = "hole_correction" /\ passed h = false /\ correction h = Some c) \/
         (k = "height_correction" /\ passed g = false /\ correction g = Some c)) /\
      (approved r = true ->
         forall k c, In (k, c) (feedback r) -> k = "taper_correction") /\
      (confidence r = 1 -> feedback r = []).
Proof.
  eexists; eexists. split; [run_review |].
  eapply (feedback_only_for_failed_checks render render init door_panel).
  run_review.
Defined.

Lemma no_sections_never_approved_witness :
  exists r self',
    field [] "sections" (VList []) = VList [] /\
    review render render init (VDict []) = (OK r, self') /\
    approved r = false /\ feedback r = [] /\
    In "No sections defined" (errors r).
Proof.
  eexists; eexists. split; [reflexivity |].
  split; [unfold review, run_checks; eval_py; reflexivity |].
  eapply (no_sections_never_approved render render init []);
    [reflexivity | unfold review, run_checks; eval_py; reflexivity].
Defined.

End VerdictSamples.

Section CheckSamples.

Import Judge Readings Samples MoreSamples.


Lemma height_correction_echoes_heights_witness :
  exists v,
    Forall2 (fun s h => number_at "height" 0 s = OK h) tall_sections [6000] /\
    _validate_heights render (VList tall_sections) VNone = OK v /\
    passed v = false /\
    exists vals,
      correction v = Some (VDict [("section_heights", VList vals)]) /\
      Forall2 (fun s x => get s "height" (VNum 0) = OK x) tall_sections vals.
Proof.
  assert (H : Forall2 (fun s h => number_at "height" 0 s = OK h)
                tall_sections [6000]).
  { constructor; [reflexivity | constructor]. }
  eexists. split; [exact H |].
  split; [unfold _validate_heights, tall_sections; eval_py; reflexivity |].
  split; [reflexivity |].
  eapply (height_correction_echoes_heights render tall_sections [6000] VNone);
    [exact H | unfold _validate_heights, tall_sections; eval_py; reflexivity
    | reflexivity].
Defined.


Lemma corrected_widths_pass_witness :
  exists v tw' adj ws,
    narrow_sections <> [] /\
    _validate_width_sum render (VNum 10) (VList narrow_sections) = OK v /\
    passed v = false /\
    correction v =
      Some (VDict [("total_width", tw'); ("section_widths", VList ws);
                   ("adjustment", adj)]) /\
    Forall2 (fun s w => get s "width" (VNum 0) = OK w)
      (map (fun w => VDict [("width", w)]) ws) ws /\
    exists v',
      _validate_width_sum render tw'
        (VList (map (fun w => VDict [("width", w)]) ws)) = OK v' /\
      passed v' = true.
Proof.
  eexists; eexists; eexists; eexists.
  split; [discriminate |].
  split; [unfold _validate_width_sum, narrow_sections; eval_py; reflexivity |].
  split; [reflexivity |]. split; [reflexivity |].
  assert (H : forall ws : list value,
             Forall2 (fun s w => get s "width" (VNum 0) = OK w)
               (map (fun w => VDict [("width", w)]) ws) ws).
  { induction ws as [| w ws IH]; constructor; [reflexivity | exact IH]. }
  split; [apply H |].
  eapply (corrected_widths_pass render (VNum 10) narrow_sections);
    [discriminate
    | unfold _validate_width_sum, narrow_sections; eval_py; reflexivity
    | reflexivity | reflexivity | apply H].
Defined.

Lemma hole_fixes_index_existing_holes_witness :
  exists v c,
    _validate_holes render (VList edge_holes) full_section (VNum 10) = OK v /\
    correction v = Some c /\
    passed v = false /\
    exists fixes,
      c = VDict [("fixes", VList fixes)] /\ fixes <> [] /\
      Forall (fun f => exists j rest,
                f = VDict (("index", VNum (IZR j)) :: rest) /\
                (0 <= j < Z.of_nat (List.length edge_holes))%Z) fixes.
Proof.
  eexists; eexists.
  split; [unfold _validate_holes, edge_holes, full_section; eval_py;
          reflexivity |].
  split; [reflexivity |].
  eapply (hole_fixes_index_existing_holes render edge_holes full_section
            (VNum 10));
    [unfold _validate_holes, edge_holes, full_section; eval_py; reflexivity
    | reflexivity].
Defined.

End CheckSamples.

Section LoopSamples.

Import Judge JudgeRun Samples MoreSamples.

Ltac run_review :=
  unfold review, run_checks, door_panel; eval_py; reflexivity.

Ltac run_loop :=
  unfold run_validation_loop; change (Z.to_nat 5) with 5%nat;
  cbn [loop offer creator judge console];
  unfold review, run_checks, door_panel; eval_py; reflexivity.

Lemma can_continue_until_fifth_review_witness :
  exists r self',
    review render render (review_all render render init [door_panel])
      door_panel = (OK r, self') /\
    r_iteration r = (Z.of_nat (List.length [door_panel]) + 1)%Z /\
    (can_continue r = true <-> (List.length [door_panel] < 4)%nat).
Proof.
  eexists; eexists.
  split; [unfold review_all; run_review |].
  eapply (can_continue_until_fifth_review render render [door_panel]
            door_panel).
  unfold review_all; run_review.
Defined.

Lemma summary_after_review_witness :
  exists r self',
    review render render init door_panel = (OK r, self') /\
    exists rate,
      get_summary self' =
        [("total_reviews",
          VNum (INR (List.length (review_history init) + 1)));
         ("approval_rate", VNum rate);
         ("iterations", VNum (IZR (iteration init + 1)));
         ("final_approved", VBool (approved r))] /\
      0 <= rate <= 1.
Proof.
  eexists; eexists. split; [run_review |].
  eapply (summary_after_review render render init door_panel).
  run_review.
Defined.

Lemma loop_returns_approved_extraction_witness :
  exists e st',
    run_validation_loop render render render_pct render_list unit
      (offer door_panel) ignore_feedback tt init 5 [] = (OK (true, e), st') /\
    forall self, exists r self',
      review render render self e = (OK r, self') /\ approved r = true.
Proof.
  eexists; eexists.
  split; [run_loop |].
  eapply (loop_returns_approved_extraction render render render_pct
            render_list unit (offer door_panel) ignore_feedback tt init 5 []).
  run_loop.
Defined.

Lemma loop_stops_without_sections_witness :
  (0 < 5)%Z /\
  offer (VDict []) tt = (OK (VDict []), tt) /\
  field [] "sections" (VList []) = VList [] /\
  returns render render (VDict []) = true /\
  exists st' printed,
    run_validation_loop render render render_pct render_list unit
      (offer (VDict [])) ignore_feedback tt init 5 []
    = (OK (false, VDict []), st') /\
    iteration (judge _ st') = (iteration init + 1)%Z /\
    console _ st' = ([] ++ printed ++ ["  No feedback provided"])%list.
Proof.
  assert (H : returns render render (VDict []) = true).
  { unfold returns, run_checks. eval_py. reflexivity. }
  split; [reflexivity |]. split; [reflexivity |]. split; [reflexivity |].
  split; [exact H |].
  apply (loop_stops_without_sections render render render_pct render_list
           unit (offer (VDict [])) ignore_feedback tt init 5 [] []);
    [reflexivity | reflexivity | reflexivity | exact H].
Defined.

End LoopSamples.

Section CalculatorSamples.

Import Precision Readings Samples MoreSamples.

Lemma valid_sections_pass_width_check_witness :
  exists d dims sections,
    extraction (mkWorld door_panel []) = VDict d /\
    field d "dimensions" (VDict []) = VDict dims /\
    field d "sections" (VList []) = VList sections /\
    sections <> [] /\
    fst (calculate_section_positions (mkWorld door_panel [])) = OK true /\
    exists widths total v,
      Forall2 (fun s x => Judge.width_of s = OK x) sections widths /\
      as_num (field dims "width" (VNum 0)) = OK total /\
      Rabs (Rsum widths - total) <= 1 / 10 /\
      Judge._validate_width_sum render (field dims "width" (VNum 0))
        (VList sections) = OK v /\
      Judge.passed v = true.
Proof.
  eexists; eexists; eexists.
  split; [reflexivity |]. split; [reflexivity |]. split; [reflexivity |].
  split; [discriminate |]. split; [exact door_panel_sections_valid |].
  eapply (valid_sections_pass_width_check render (mkWorld door_panel []));
    [reflexivity | reflexivity | reflexivity | discriminate
    | exact door_panel_sections_valid].
Defined.

Lemma sectionless_panel_splits_validators_witness :
  exists d dims,
    extraction (mkWorld flat_panel []) = VDict d /\
    field d "dimensions" (VDict []) = VDict dims /\
    field d "sections" (VList []) = VList [] /\
    as_num (field dims "width" (VNum 0)) = OK 10 /\
    as_num (field dims "height" (VNum 0)) = OK 10 /\
    (fst (calculate_section_positions (mkWorld flat_panel [])) = OK true
     <-> 0 < 10 /\ 0 < 10) /\
    (forall self r self',
       Judge.review render render self (VDict d) = (OK r, self') ->
       Judge.approved r = false).
Proof.
  eexists; eexists.
  split; [reflexivity |]. split; [reflexivity |]. split; [reflexivity |].
  split; [reflexivity |]. split; [reflexivity |].
  eapply (sectionless_panel_splits_validators render render
            (mkWorld flat_panel [])); reflexivity.
Defined.





End CalculatorSamples.

Section SpacingSamples.

Import Precision Readings Samples MoreSamples.




End SpacingSamples.

Section FailureSamples.

Import Judge Precision Readings ValidateCommand Samples MoreSamples.



Lemma door_panel_validates :
  validate_extraction render "panel.json" false (Parsed door_panel) []
  = (Returned 0%Z,
     [(JudgeRun.nl ++ "Validation Results:")%string; rule;
      "  section_positions: PASS"; "  hole_positions: PASS";
      "  geometric_feasibility: PASS"; rule; "Overall: PASSED"]).
Proof.
  unfold validate_extraction, load_extraction, announce.
  unfold calculate_section_positions, calculate_hole_positions,
    calculate_geometric_feasibility, bindM, extraction_get, lift, door_panel.
  eval_py. reflexivity.
Defined.

Lemma validation_status_is_the_conjunction_witness :
  exists c out',
    get door_panel "extraction" door_panel = OK door_panel /\
    validate_extraction render "panel.json" false (Parsed door_panel) []
      = (Returned c, out') /\
    (c = 0 \/ c = 1)%Z /\
    (c = 0%Z <->
       fst (calculate_section_positions (mkWorld door_panel [])) = OK true /\
       fst (calculate_hole_positions (mkWorld door_panel [])) = OK true /\
       fst (calculate_geometric_feasibility (mkWorld door_panel [])) = OK true) /\
    last out' EmptyString
      = ("Overall: " ++ (if (c =? 0)%Z then "PASSED" else "FAILED"))%string /\
    exists lines, out' = ([] ++ lines)%list.
Proof.
  eexists; eexists. split; [reflexivity |].
  split; [exact door_panel_validates |].
  apply (validation_status_is_the_conjunction render "panel.json" false
           door_panel door_panel []);
    [reflexivity | exact door_panel_validates].
Defined.

Lemma wrapped_document_validates_alike_witness :
  ~ In "extraction" (map fst (entries door_panel)) /\
  validate_extraction render "panel.json" true
    (Parsed (VDict [("extraction", VDict (entries door_panel))])) []
  = validate_extraction render "panel.json" true
      (Parsed (VDict (entries door_panel))) [].
Proof.
  assert (H : ~ In "extraction" (map fst (entries door_panel))).
  { cbn. intros [H | [H | [H | []]]]; discriminate H. }
  split; [exact H |].
  exact (wrapped_document_validates_alike render "panel.json" true
           (entries door_panel) [] H).
Defined.

Lemma review_reads_three_entries_witness :
  (forall dv, field (entries door_panel) "dimensions" dv
              = field annotated_door "dimensions" dv) /\
  (forall dv, field (entries door_panel) "sections" dv
              = field annotated_door "sections" dv) /\
  (forall dv, field (entries door_panel) "holes" dv
              = field annotated_door "holes" dv) /\
  review render render init (VDict (entries door_panel))
  = review render render init (VDict annotated_door).
Proof.
  split; [intros dv; reflexivity |]. split; [intros dv; reflexivity |].
  split; [intros dv; reflexivity |].
  apply (review_reads_three_entries render render init (entries door_panel)
           annotated_door); intros dv; reflexivity.
Defined.

End FailureSamples.
